(** * GenAgent Pro: the plan / execute / validate / retry workflow

    A shallow embedding of the workflow engine of the repository:
    [core/state.py], [agents/planner_agent.py], [agents/executor_agent.py],
    [agents/validator_agent.py], [agents/memory_agent.py] and
    [core/orchestrator.py].

    Modelling conventions.
    - Python [str] is [string]; the text handled here is ASCII, one
      character per [ascii].
    - The state dictionary [AgentState] is a record that every agent
      receives and returns; an in-place mutation [state[k] = v] is a
      setter applied to the record.
    - [task_plan] is a list updated by index; [execution_results] is a
      [gmap] from task ids to result texts.
    - The language model, the tools, the JSON parsers and the vector store
      are external collaborators.  Their answers are supplied by a [World]
      record, one per stage invocation, so that nothing is assumed about
      them (they may answer differently each time they are called).  A call
      that raises a Python exception answers [Raise msg].
    - Every agent returns, next to the new state, the list of external
      calls it made (language model calls and tool invocations).  This
      trace is not part of the program state; it records what the Python
      code does on the way. *)

From Stdlib Require Import String Ascii List QArith Bool Lia.
From stdpp Require Import base list gmap strings pretty.

Local Open Scope string_scope.
Local Open Scope list_scope.
Local Open Scope nat_scope.

(** ** Python string operations *)

Module PyStr.

Definition nl : string := String (ascii_of_nat 10) EmptyString.

(** [sub in s] *)
Fixpoint contains (sub s : string) : bool :=
  String.prefix sub s ||
  match s with
  | EmptyString => false
  | String _ s' => contains sub s'
  end.

(** [s.split(sep)] for a non-empty separator: the pieces between the
    non-overlapping occurrences of [sep], scanned from the left.  [skip]
    counts the characters of a matched separator still to be dropped and
    [acc] holds the current piece, reversed. *)
Fixpoint split_go (sep : string) (skip : nat) (acc : list ascii) (s : string)
  : list string :=
  match s with
  | EmptyString => [string_of_list_ascii (rev acc)]
  | String c s' =>
      match skip with
      | S k => split_go sep k acc s'
      | O =>
          if String.prefix sep s
          then string_of_list_ascii (rev acc)
                 :: split_go sep (String.length sep - 1) [] s'
          else split_go sep 0 (c :: acc) s'
      end
  end.

Definition split (sep s : string) : list string := split_go sep 0 [] s.

(** The whitespace characters of [str.strip()] in the ASCII range. *)
Definition isspace (c : ascii) : bool :=
  let n := nat_of_ascii c in
  ((9 <=? n) && (n <=? 13)) || ((28 <=? n) && (n <=? 32)).

Fixpoint lstrip_list (l : list ascii) : list ascii :=
  match l with
  | c :: l' => if isspace c then lstrip_list l' else l
  | [] => []
  end.

(** [s.strip()] *)
Definition strip (s : string) : string :=
  string_of_list_ascii
    (rev (lstrip_list (rev (lstrip_list (list_ascii_of_string s))))).

Definition lower_ascii (c : ascii) : ascii :=
  let n := nat_of_ascii c in
  if (65 <=? n) && (n <=? 90) then ascii_of_nat (n + 32) else c.

(** [s.lower()] *)
Fixpoint lower (s : string) : string :=
  match s with
  | EmptyString => EmptyString
  | String c s' => String (lower_ascii c) (lower s')
  end.

(** [sep.join(parts)] *)
Fixpoint join (sep : string) (parts : list string) : string :=
  match parts with
  | [] => ""
  | [p] => p
  | p :: ps => p ++ sep ++ join sep ps
  end.

(** [s[:n]] *)
Fixpoint take (n : nat) (s : string) : string :=
  match n, s with
  | S k, String c s' => String c (take k s')
  | _, _ => EmptyString
  end.

(** [f"{x}"] for an optional text: [None] prints as the word None. *)
Definition str_opt (o : option string) : string :=
  match o with
  | Some s => s
  | None => "None"
  end.

End PyStr.

(** ** core/state.py *)

Inductive TaskStatus : Type :=
  | PENDING
  | IN_PROGRESS
  | COMPLETED
  | FAILED
  | VALIDATION_FAILED.

#[global] Instance TaskStatus_eq_dec : EqDecision TaskStatus.
Proof. solve_decision. Defined.

(** [class Task(TypedDict)] *)
Module Task.
Record t : Type := mk {
  id : string;
  description : string;
  agent : string;
  status : TaskStatus;
  dependencies : list string;
  result : option string;
  error : option string
}.

Definition set_status (v : TaskStatus) (x : t) : t :=
  mk (id x) (description x) (agent x) v (dependencies x) (result x) (error x).
Definition set_result (v : option string) (x : t) : t :=
  mk (id x) (description x) (agent x) (status x) (dependencies x) v (error x).
Definition set_error (v : option string) (x : t) : t :=
  mk (id x) (description x) (agent x) (status x) (dependencies x) (result x) v.
End Task.

(** A Python [float]: a finite value (a rational), an infinity or NaN. *)
Inductive pyfloat : Type :=
  | Finite (q : Q)
  | PosInf
  | NegInf
  | NaN.

(** [x >= threshold] for a finite threshold; every comparison with NaN is
    false. *)
Definition float_ge (x : pyfloat) (threshold : Q) : bool :=
  match x with
  | Finite q => Qle_bool threshold q
  | PosInf => true
  | NegInf | NaN => false
  end.

(** The dictionary stored in [state["validation_result"]]. *)
Record ValidationResult : Type := {
  valid : bool;
  score : pyfloat;
  feedback : string
}.

(** An entry of [state["tool_calls"]]. *)
Record ToolCall : Type := {
  tc_task_id : string;
  tc_description : string;
  tc_result : string
}.

(** An entry of [state["conversation_history"]]. *)
Record Message : Type := {
  role : string;
  content : string
}.

(** [class AgentState(TypedDict)] *)
Record AgentState : Type := mkState {
  user_input : string;
  user_goal : string;
  task_plan : list Task.t;
  current_task_index : nat;
  current_task : option Task.t;
  tool_calls : list ToolCall;
  execution_results : gmap string string;
  validation_result : option ValidationResult;
  validation_passed : bool;
  retry_count : nat;
  conversation_history : list Message;
  retrieved_context : option string;
  next_agent : string;
  iteration_count : nat;
  is_complete : bool;
  final_output : option string;
  errors : list string;
  warnings : list string
}.

(** [state[key] = v], one setter per key the agents assign. *)
Definition set_task_plan (v : list Task.t) (s : AgentState) : AgentState :=
  mkState (user_input s) (user_goal s) v (current_task_index s) (current_task s)
    (tool_calls s) (execution_results s) (validation_result s)
    (validation_passed s) (retry_count s) (conversation_history s)
    (retrieved_context s) (next_agent s) (iteration_count s) (is_complete s)
    (final_output s) (errors s) (warnings s).
Definition set_current_task_index (v : nat) (s : AgentState) : AgentState :=
  mkState (user_input s) (user_goal s) (task_plan s) v (current_task s)
    (tool_calls s) (execution_results s) (validation_result s)
    (validation_passed s) (retry_count s) (conversation_history s)
    (retrieved_context s) (next_agent s) (iteration_count s) (is_complete s)
    (final_output s) (errors s) (warnings s).
Definition set_tool_calls (v : list ToolCall) (s : AgentState) : AgentState :=
  mkState (user_input s) (user_goal s) (task_plan s) (current_task_index s)
    (current_task s) v (execution_results s) (validation_result s)
    (validation_passed s) (retry_count s) (conversation_history s)
    (retrieved_context s) (next_agent s) (iteration_count s) (is_complete s)
    (final_output s) (errors s) (warnings s).
Definition set_execution_results (v : gmap string string) (s : AgentState)
  : AgentState :=
  mkState (user_input s) (user_goal s) (task_plan s) (current_task_index s)
    (current_task s) (tool_calls s) v (validation_result s)
    (validation_passed s) (retry_count s) (conversation_history s)
    (retrieved_context s) (next_agent s) (iteration_count s) (is_complete s)
    (final_output s) (errors s) (warnings s).
Definition set_validation_result (v : option ValidationResult) (s : AgentState)
  : AgentState :=
  mkState (user_input s) (user_goal s) (task_plan s) (current_task_index s)
    (current_task s) (tool_calls s) (execution_results s) v
    (validation_passed s) (retry_count s) (conversation_history s)
    (retrieved_context s) (next_agent s) (iteration_count s) (is_complete s)
    (final_output s) (errors s) (warnings s).
Definition set_validation_passed (v : bool) (s : AgentState) : AgentState :=
  mkState (user_input s) (user_goal s) (task_plan s) (current_task_index s)
    (current_task s) (tool_calls s) (execution_results s) (validation_result s)
    v (retry_count s) (conversation_history s)
    (retrieved_context s) (next_agent s) (iteration_count s) (is_complete s)
    (final_output s) (errors s) (warnings s).
Definition set_retry_count (v : nat) (s : AgentState) : AgentState :=
  mkState (user_input s) (user_goal s) (task_plan s) (current_task_index s)
    (current_task s) (tool_calls s) (execution_results s) (validation_result s)
    (validation_passed s) v (conversation_history s)
    (retrieved_context s) (next_agent s) (iteration_count s) (is_complete s)
    (final_output s) (errors s) (warnings s).
Definition set_conversation_history (v : list Message) (s : AgentState)
  : AgentState :=
  mkState (user_input s) (user_goal s) (task_plan s) (current_task_index s)
    (current_task s) (tool_calls s) (execution_results s) (validation_result s)
    (validation_passed s) (retry_count s) v
    (retrieved_context s) (next_agent s) (iteration_count s) (is_complete s)
    (final_output s) (errors s) (warnings s).
Definition set_retrieved_context (v : option string) (s : AgentState)
  : AgentState :=
  mkState (user_input s) (user_goal s) (task_plan s) (current_task_index s)
    (current_task s) (tool_calls s) (execution_results s) (validation_result s)
    (validation_passed s) (retry_count s) (conversation_history s)
    v (next_agent s) (iteration_count s) (is_complete s)
    (final_output s) (errors s) (warnings s).
Definition set_next_agent (v : string) (s : AgentState) : AgentState :=
  mkState (user_input s) (user_goal s) (task_plan s) (current_task_index s)
    (current_task s) (tool_calls s) (execution_results s) (validation_result s)
    (validation_passed s) (retry_count s) (conversation_history s)
    (retrieved_context s) v (iteration_count s) (is_complete s)
    (final_output s) (errors s) (warnings s).
Definition set_iteration_count (v : nat) (s : AgentState) : AgentState :=
  mkState (user_input s) (user_goal s) (task_plan s) (current_task_index s)
    (current_task s) (tool_calls s) (execution_results s) (validation_result s)
    (validation_passed s) (retry_count s) (conversation_history s)
    (retrieved_context s) (next_agent s) v (is_complete s)
    (final_output s) (errors s) (warnings s).
Definition set_is_complete (v : bool) (s : AgentState) : AgentState :=
  mkState (user_input s) (user_goal s) (task_plan s) (current_task_index s)
    (current_task s) (tool_calls s) (execution_results s) (validation_result s)
    (validation_passed s) (retry_count s) (conversation_history s)
    (retrieved_context s) (next_agent s) (iteration_count s) v
    (final_output s) (errors s) (warnings s).
Definition set_final_output (v : option string) (s : AgentState) : AgentState :=
  mkState (user_input s) (user_goal s) (task_plan s) (current_task_index s)
    (current_task s) (tool_calls s) (execution_results s) (validation_result s)
    (validation_passed s) (retry_count s) (conversation_history s)
    (retrieved_context s) (next_agent s) (iteration_count s) (is_complete s)
    v (errors s) (warnings s).
Definition set_errors (v : list string) (s : AgentState) : AgentState :=
  mkState (user_input s) (user_goal s) (task_plan s) (current_task_index s)
    (current_task s) (tool_calls s) (execution_results s) (validation_result s)
    (validation_passed s) (retry_count s) (conversation_history s)
    (retrieved_context s) (next_agent s) (iteration_count s) (is_complete s)
    (final_output s) v (warnings s).
Definition set_warnings (v : list string) (s : AgentState) : AgentState :=
  mkState (user_input s) (user_goal s) (task_plan s) (current_task_index s)
    (current_task s) (tool_calls s) (execution_results s) (validation_result s)
    (validation_passed s) (retry_count s) (conversation_history s)
    (retrieved_context s) (next_agent s) (iteration_count s) (is_complete s)
    (final_output s) (errors s) v.

(** [state["task_plan"][i][...] = ...]: the task at index [i] is replaced by
    [f] of itself.  The callers only do this at an index inside the plan. *)
Definition update_task (i : nat) (f : Task.t -> Task.t) (s : AgentState)
  : AgentState :=
  set_task_plan (alter f i (task_plan s)) s.

(** [create_initial_state] *)
Definition create_initial_state (input : string) : AgentState :=
  {| user_input := input;
     user_goal := input;
     task_plan := [];
     current_task_index := 0;
     current_task := None;
     tool_calls := [];
     execution_results := ∅;
     validation_result := None;
     validation_passed := false;
     retry_count := 0;
     conversation_history := [];
     retrieved_context := None;
     next_agent := "planner";
     iteration_count := 0;
     is_complete := false;
     final_output := None;
     errors := [];
     warnings := [] |}.

(** ** The external collaborators *)

Inductive outcome (A : Type) : Type :=
  | Ret (a : A)
  | Raise (msg : string).
Arguments Ret {A} a.
Arguments Raise {A} msg.

(** The dictionary a tool's [execute] returns ([tools/base_tool.py],
    [_success_response] and [_error_response]). *)
Record ToolResult : Type := {
  success : bool;
  tr_result : option string;
  tr_error : option string
}.

(** A task dictionary of the plan JSON, after [_parse_plan]; [agent] and
    [dependencies] are read with [dict.get] and may be absent. *)
Record TaskDict : Type := {
  td_id : string;
  td_description : string;
  td_agent : option string;
  td_dependencies : option (list string)
}.

Record World : Type := {
  (** [BaseAgent.invoke_llm(prompt)]: the model's text, or the exception it
      re-raises. *)
  llm_invoke : string -> outcome string;
  (** [self.tools[name].execute(input)] *)
  tool_execute : string -> string -> outcome ToolResult;
  (** [PlannerAgent._parse_plan(response)] followed by the reading of the
      required keys of each task dictionary; [Raise] stands for the
      [ValueError] of a malformed plan or the [KeyError] of a missing key. *)
  parse_plan : string -> outcome (list TaskDict);
  (** [ValidatorAgent._parse_validation(response)]; it catches every
      exception itself and always returns the three keys. *)
  parse_validation : string -> ValidationResult;
  (** [MemoryAgent._retrieve_relevant_context(query)]; catches everything. *)
  retrieve_relevant_context : string -> string;
  (** [self.vector_store.get_stats()['total_vectors']]; [Some msg] when it
      raises. *)
  get_stats_raises : option string
}.

(** The external calls an agent makes. *)
Inductive Event : Type :=
  | LLMCall (agent_name : string) (prompt : string)
  | ToolInvoked (tool_name : string) (tool_input : string)
  | MemoryStored (goal : string).

Definition is_tool_event (e : Event) : bool :=
  match e with
  | ToolInvoked _ _ => true
  | LLMCall _ _ | MemoryStored _ => false
  end.

Definition is_memory_event (e : Event) : bool :=
  match e with
  | MemoryStored _ => true
  | LLMCall _ _ | ToolInvoked _ _ => false
  end.

(** ** agents/executor_agent.py *)

(** A registered tool, as far as the executor looks at it: [tool.name] and
    [tool.description]. *)
Record ToolInfo : Type := {
  tool_name_of : string;
  tool_description_of : string
}.

(** [d[k] = v] on a dictionary kept in insertion order. *)
Fixpoint dict_set (k v : string) (d : list (string * string))
  : list (string * string) :=
  match d with
  | [] => [(k, v)]
  | (k', v') :: d' =>
      if String.eqb k' k then (k, v) :: d' else (k', v') :: dict_set k v d'
  end.

(** [self.tools = {tool.name: tool for tool in tools}] *)
Definition tools_dict (tools : list ToolInfo) : list (string * string) :=
  fold_left (fun d tl => dict_set (tool_name_of tl) (tool_description_of tl) d)
            tools [].

(** [name in self.tools] *)
Definition tool_registered (tools : list ToolInfo) (name : string) : bool :=
  existsb (fun kv => String.eqb (fst kv) name) (tools_dict tools).

(** [next((t for t in task_plan if t["id"] == dep_id), None)]: the first task
    of the plan with that id. *)
Definition find_task (plan : list Task.t) (dep_id : string) : option Task.t :=
  List.find (fun x => String.eqb (Task.id x) dep_id) plan.

Section Executor.

Variable tools : list ToolInfo.

(** [_check_dependencies]: every dependency id must name a task of the plan
    whose status is COMPLETED. *)
Definition _check_dependencies (task : Task.t) (s : AgentState) : bool :=
  forallb
    (fun dep_id =>
       match find_task (task_plan s) dep_id with
       | None => false
       | Some dep_task => bool_decide (Task.status dep_task = COMPLETED)
       end)
    (Task.dependencies task).

(** [_format_tools_description] *)
Definition _format_tools_description : string :=
  PyStr.join PyStr.nl
    (map (fun kv => "- " +:+ fst kv +:+ ": " +:+ snd kv) (tools_dict tools)).

(** The [context] list of [_build_execution_prompt]: the stored results of
    the dependencies, in the order of the dependency list. *)
Definition dependency_context (task : Task.t) (s : AgentState) : list string :=
  omap (fun dep_id =>
          match execution_results s !! dep_id with
          | Some r => Some ("Result from " +:+ dep_id +:+ ": " +:+ r)
          | None => None
          end)
       (Task.dependencies task).

(** [_build_execution_prompt] *)
Definition _build_execution_prompt (task : Task.t) (s : AgentState) : string :=
  let context := dependency_context task s in
  let context_str :=
    match context with
    | [] => "No previous results"
    | _ => PyStr.join PyStr.nl context
    end in
  PyStr.nl +:+
  "Task: " +:+ Task.description task +:+ PyStr.nl +:+
  PyStr.nl +:+
  "Previous Results:" +:+ PyStr.nl +:+
  context_str +:+ PyStr.nl +:+
  PyStr.nl +:+
  "Available Tools:" +:+ PyStr.nl +:+
  _format_tools_description +:+ PyStr.nl +:+
  PyStr.nl +:+
  "Instructions:" +:+ PyStr.nl +:+
  "1. Analyze the task" +:+ PyStr.nl +:+
  "2. Decide which tool(s) to use" +:+ PyStr.nl +:+
  "3. Provide tool name and inputs" +:+ PyStr.nl +:+
  "4. Format: TOOL: <tool_name> | INPUT: <input_data>" +:+ PyStr.nl +:+
  PyStr.nl +:+
  "Example: TOOL: calculator | INPUT: 5 + 3 * 2" +:+ PyStr.nl.

(** The tool name and the tool input [_execute_with_tools] reads off a
    response that contains both markers. *)
Definition parse_tool_name (llm_response : string) : string :=
  PyStr.strip
    (nth 0 (PyStr.split "|" (nth 1 (PyStr.split "TOOL:" llm_response) "")) "").

Definition parse_tool_input (llm_response : string) : string :=
  PyStr.strip (nth 1 (PyStr.split "INPUT:" llm_response) "").

Definition has_tool_call (llm_response : string) : bool :=
  PyStr.contains "TOOL:" llm_response && PyStr.contains "INPUT:" llm_response.

(** [_execute_with_tools]: the result text, and the tool invocation made
    (none, or one). *)
Definition _execute_with_tools (w : World) (llm_response : string)
  : string * list Event :=
  if has_tool_call llm_response then
    let tool_name := parse_tool_name llm_response in
    let tool_input := parse_tool_input llm_response in
    if tool_registered tools tool_name then
      match tool_execute w tool_name tool_input with
      | Ret tool_result =>
          if success tool_result
          then ("Tool " +:+ tool_name +:+ " executed successfully:" +:+ PyStr.nl
                  +:+ PyStr.str_opt (tr_result tool_result),
                [ToolInvoked tool_name tool_input])
          else ("Tool " +:+ tool_name +:+ " failed: "
                  +:+ PyStr.str_opt (tr_error tool_result),
                [ToolInvoked tool_name tool_input])
      | Raise e =>
          ("Tool execution failed: " +:+ e, [ToolInvoked tool_name tool_input])
      end
    else (llm_response, [])
  else (llm_response, []).

(** The [except] branch of [execute]. *)
Definition executor_on_exception (task_index : nat) (e : string)
    (s : AgentState) : AgentState :=
  let s1 :=
    if decide (task_index < length (task_plan s))
    then update_task task_index
           (fun x => Task.set_error (Some e) (Task.set_status FAILED x)) s
    else s in
  set_next_agent "validator"
    (set_errors (errors s1 ++ ["Execution error: " +:+ e]) s1).

(** [ExecutorAgent.execute].  [task_index >= len(task_plan)] is the case
    where the plan has no task at [task_index]. *)
Definition executor_execute (w : World) (s : AgentState)
  : AgentState * list Event :=
  let task_index := current_task_index s in
  match task_plan s !! task_index with
  | None => (set_next_agent "validator" s, [])
  | Some current_task =>
      if negb (_check_dependencies current_task s) then
        let error_msg := "Dependencies not met for " +:+ Task.id current_task in
        let s1 := update_task task_index
                    (fun x => Task.set_error (Some error_msg)
                                (Task.set_status FAILED x)) s in
        (set_next_agent "validator"
           (set_errors (errors s1 ++ [error_msg]) s1), [])
      else
        let s1 := update_task task_index (Task.set_status IN_PROGRESS) s in
        let execution_prompt := _build_execution_prompt current_task s1 in
        match llm_invoke w execution_prompt with
        | Raise e =>
            (executor_on_exception task_index e s1,
             [LLMCall "executor" execution_prompt])
        | Ret llm_response =>
            let '(result, invoked) := _execute_with_tools w llm_response in
            let s2 := update_task task_index
                        (fun x => Task.set_result (Some result)
                                    (Task.set_status COMPLETED x)) s1 in
            let s3 := set_execution_results
                        (<[Task.id current_task := result]>
                           (execution_results s2)) s2 in
            let s4 := set_tool_calls
                        (tool_calls s3 ++
                           [{| tc_task_id := Task.id current_task;
                               tc_description := Task.description current_task;
                               tc_result := result |}]) s3 in
            let s5 := set_current_task_index (current_task_index s4 + 1) s4 in
            let s6 := set_iteration_count (iteration_count s5 + 1) s5 in
            let s7 :=
              if decide (current_task_index s6 < length (task_plan s6))
              then set_next_agent "executor" s6
              else set_next_agent "validator" s6 in
            (s7, LLMCall "executor" execution_prompt :: invoked)
        end
  end.

End Executor.


(** ** agents/validator_agent.py *)

Definition dq : string := String (ascii_of_nat 34) EmptyString.

Definition is_completed (x : Task.t) : Prop := Task.status x = COMPLETED.
Definition is_failed (x : Task.t) : Prop := Task.status x = FAILED.

#[global] Instance is_completed_dec x : Decision (is_completed x).
Proof. unfold is_completed. apply _. Defined.
#[global] Instance is_failed_dec x : Decision (is_failed x).
Proof. unfold is_failed. apply _. Defined.

(** [_is_simple_calculator_task] *)
Definition _is_simple_calculator_task (s : AgentState) : bool :=
  forallb (fun tool_call =>
             PyStr.contains "calculator" (PyStr.lower (tc_result tool_call)))
          (tool_calls s)
  && bool_decide (errors s = [])
  && bool_decide (length (filter is_completed (task_plan s))
                  = length (task_plan s)).

(** [_compile_final_output] *)
Definition _compile_final_output (s : AgentState) : string :=
  let task_parts (x : Task.t) : list string :=
    match Task.status x with
    | COMPLETED =>
        ["✓ " +:+ Task.description x;
         "  Result: " +:+ PyStr.str_opt (Task.result x) +:+ PyStr.nl]
    | FAILED =>
        ["✗ " +:+ Task.description x;
         "  Error: " +:+ PyStr.str_opt (Task.error x) +:+ PyStr.nl]
    | _ => []
    end in
  let output_parts :=
    ["Goal: " +:+ user_goal s +:+ PyStr.nl]
    ++ concat (map task_parts (task_plan s))
    ++ match validation_result s with
       | Some vr => [PyStr.nl +:+ "Validation: " +:+ feedback vr]
       | None => []
       end in
  PyStr.join PyStr.nl output_parts.

(** One line of [completed_str]; [t['result'][:200]] raises a [TypeError]
    when the result is [None]. *)
Definition completed_line (x : Task.t) : outcome string :=
  match Task.result x with
  | Some r =>
      Ret ("- " +:+ Task.id x +:+ ": " +:+ Task.description x +:+ PyStr.nl
           +:+ "  Result: " +:+ PyStr.take 200 r)
  | None => Raise "'NoneType' object is not subscriptable"
  end.

Fixpoint completed_lines (l : list Task.t) : outcome (list string) :=
  match l with
  | [] => Ret []
  | x :: l' =>
      match completed_line x with
      | Raise e => Raise e
      | Ret ln =>
          match completed_lines l' with
          | Raise e => Raise e
          | Ret lns => Ret (ln :: lns)
          end
      end
  end.

Definition failed_line (x : Task.t) : string :=
  "- " +:+ Task.id x +:+ ": " +:+ Task.description x +:+ PyStr.nl
  +:+ "  Error: " +:+ PyStr.str_opt (Task.error x).

(** [_build_validation_prompt] *)
Definition _build_validation_prompt (s : AgentState)
    (completed_tasks failed_tasks : list Task.t) : outcome string :=
  match completed_lines completed_tasks with
  | Raise e => Raise e
  | Ret lns =>
      let completed_str := PyStr.join PyStr.nl lns in
      let failed_str :=
        match failed_tasks with
        | [] => "None"
        | _ => PyStr.join PyStr.nl (map failed_line failed_tasks)
        end in
      Ret (PyStr.nl +:+
           "Original Goal: " +:+ user_goal s +:+ PyStr.nl +:+
           PyStr.nl +:+
           "Completed Tasks:" +:+ PyStr.nl +:+
           completed_str +:+ PyStr.nl +:+
           PyStr.nl +:+
           "Failed Tasks:" +:+ PyStr.nl +:+
           failed_str +:+ PyStr.nl +:+
           PyStr.nl +:+
           "Evaluate if the goal was achieved successfully." +:+ PyStr.nl +:+
           "Consider:" +:+ PyStr.nl +:+
           "1. Were all required tasks completed?" +:+ PyStr.nl +:+
           "2. Do results make sense and answer the goal?" +:+ PyStr.nl +:+
           "3. Are there any errors or inconsistencies?" +:+ PyStr.nl +:+
           "4. Is the quality acceptable?" +:+ PyStr.nl +:+
           PyStr.nl +:+
           "Output ONLY valid JSON:" +:+ PyStr.nl +:+
           "{" +:+ PyStr.nl +:+
           "  " +:+ dq +:+ "valid" +:+ dq +:+ ": true/false," +:+ PyStr.nl +:+
           "  " +:+ dq +:+ "score" +:+ dq +:+ ": 0.0-1.0," +:+ PyStr.nl +:+
           "  " +:+ dq +:+ "feedback" +:+ dq +:+ ": " +:+ dq +:+
           "Detailed feedback on what worked or failed" +:+ dq +:+ PyStr.nl +:+
           "}" +:+ PyStr.nl)
  end.

(** The retry reset: [for task in task_plan: if task.status == FAILED:
    task.status = PENDING]. *)
Definition reset_failed_tasks (plan : list Task.t) : list Task.t :=
  map (fun x => if decide (is_failed x) then Task.set_status PENDING x else x)
      plan.

Section Validator.

(** [self.threshold] (0.8 unless the constructor is given another). *)
Variable threshold : Q.

(** The [except] branch of [execute]. *)
Definition validator_on_exception (e : string) (s : AgentState) : AgentState :=
  set_is_complete true
    (set_next_agent "end"
       (set_validation_passed false
          (set_errors (errors s ++ ["Validation error: " +:+ e]) s))).

(** The fast path of [execute]. *)
Definition auto_validate (s : AgentState) : AgentState :=
  let s1 := set_validation_passed true s in
  let s2 := set_validation_result
              (Some {| valid := true;
                       score := Finite 1;
                       feedback := "Auto-validated: Simple calculator task completed successfully" |})
              s1 in
  let s3 := set_final_output (Some (_compile_final_output s2)) s2 in
  set_is_complete true (set_next_agent "end" s3).

(** The decision of [execute] once the verdict is parsed. *)
Definition decide_next_action (validation_result : ValidationResult)
    (s : AgentState) : AgentState :=
  let s1 := set_validation_result (Some validation_result) s in
  if valid validation_result && float_ge (score validation_result) threshold
  then
    let s2 := set_validation_passed true s1 in
    let s3 := set_final_output (Some (_compile_final_output s2)) s2 in
    set_is_complete true (set_next_agent "end" s3)
  else if decide (retry_count s1 < 2) then
    let s2 := set_validation_passed false s1 in
    let s3 := set_retry_count (retry_count s2 + 1) s2 in
    let s4 := set_warnings
                (warnings s3 ++
                   ["Retry " +:+ pretty (retry_count s3) +:+ ": "
                    +:+ feedback validation_result]) s3 in
    let s5 := set_current_task_index 0 s4 in
    let s6 := set_task_plan (reset_failed_tasks (task_plan s5)) s5 in
    set_next_agent "executor" s6
  else
    let s2 := set_validation_passed false s1 in
    let s3 := set_errors
                (errors s2 ++ ["Validation failed after max retries"]) s2 in
    let s4 := set_final_output (Some (_compile_final_output s3)) s3 in
    set_is_complete true (set_next_agent "end" s4).

(** The rest of [execute], after the fast path was not taken: the tasks
    are collected, the scorer is asked and its verdict decides. *)
Definition full_validation (w : World) (s : AgentState)
  : AgentState * list Event :=
  let completed_tasks := filter is_completed (task_plan s) in
  let failed_tasks := filter is_failed (task_plan s) in
  match completed_tasks, failed_tasks with
  | [], [] =>
      (set_is_complete true
         (set_next_agent "end" (set_validation_passed false s)), [])
  | _, _ =>
      match _build_validation_prompt s completed_tasks failed_tasks with
      | Raise e => (validator_on_exception e s, [])
      | Ret validation_prompt =>
          match llm_invoke w validation_prompt with
          | Raise e =>
              (validator_on_exception e s,
               [LLMCall "validator" validation_prompt])
          | Ret validation_response =>
              (decide_next_action
                 (parse_validation w validation_response) s,
               [LLMCall "validator" validation_prompt])
          end
      end
  end.

(** [ValidatorAgent.execute] *)
Definition validator_execute (w : World) (s : AgentState)
  : AgentState * list Event :=
  if _is_simple_calculator_task s then (auto_validate s, [])
  else full_validation w s.

End Validator.

(** ** agents/planner_agent.py *)

(** The [planning_prompt] of [PlannerAgent.execute]. *)
Definition planning_prompt (goal : string) : string :=
  PyStr.nl +:+
  "User Goal: " +:+ goal +:+ PyStr.nl +:+
  PyStr.nl +:+
  "Available Tools:" +:+ PyStr.nl +:+
  "- file_reader: Read PDF, TXT, CSV, DOCX files" +:+ PyStr.nl +:+
  "- python_executor: Execute Python code" +:+ PyStr.nl +:+
  "- calculator: Perform mathematical calculations" +:+ PyStr.nl +:+
  "- memory_search: Search past conversation memory" +:+ PyStr.nl +:+
  PyStr.nl +:+
  "Create a step-by-step plan to achieve this goal." +:+ PyStr.nl +:+
  "Output ONLY valid JSON with this exact structure:" +:+ PyStr.nl +:+
  "{" +:+ PyStr.nl +:+
  "  " +:+ dq +:+ "tasks" +:+ dq +:+ ": [" +:+ PyStr.nl +:+
  "    {" +:+ PyStr.nl +:+
  "      " +:+ dq +:+ "id" +:+ dq +:+ ": " +:+ dq +:+ "task_1" +:+ dq +:+ "," +:+ PyStr.nl +:+
  "      " +:+ dq +:+ "description" +:+ dq +:+ ": " +:+ dq +:+
    "Clear description of what to do" +:+ dq +:+ "," +:+ PyStr.nl +:+
  "      " +:+ dq +:+ "agent" +:+ dq +:+ ": " +:+ dq +:+ "executor" +:+ dq +:+ "," +:+ PyStr.nl +:+
  "      " +:+ dq +:+ "dependencies" +:+ dq +:+ ": []" +:+ PyStr.nl +:+
  "    }," +:+ PyStr.nl +:+
  "    {" +:+ PyStr.nl +:+
  "      " +:+ dq +:+ "id" +:+ dq +:+ ": " +:+ dq +:+ "task_2" +:+ dq +:+ "," +:+ PyStr.nl +:+
  "      " +:+ dq +:+ "description" +:+ dq +:+ ": " +:+ dq +:+
    "Next task description" +:+ dq +:+ "," +:+ PyStr.nl +:+
  "      " +:+ dq +:+ "agent" +:+ dq +:+ ": " +:+ dq +:+ "executor" +:+ dq +:+ "," +:+ PyStr.nl +:+
  "      " +:+ dq +:+ "dependencies" +:+ dq +:+ ": [" +:+ dq +:+ "task_1" +:+ dq +:+ "]" +:+ PyStr.nl +:+
  "    }" +:+ PyStr.nl +:+
  "  ]" +:+ PyStr.nl +:+
  "}" +:+ PyStr.nl +:+
  PyStr.nl +:+
  "Rules:" +:+ PyStr.nl +:+
  "1. Break complex goals into 2-8 simple tasks" +:+ PyStr.nl +:+
  "2. Each task should use ONE tool or action" +:+ PyStr.nl +:+
  "3. Dependencies: List task IDs that must complete first" +:+ PyStr.nl +:+
  "4. Keep tasks atomic and executable" +:+ PyStr.nl +:+
  "5. Always assign agent=" +:+ dq +:+ "executor" +:+ dq +:+ " for now" +:+ PyStr.nl.

(** [Task(id=..., status=TaskStatus.PENDING, ..., result=None, error=None)] *)
Definition task_of_dict (d : TaskDict) : Task.t :=
  Task.mk (td_id d) (td_description d)
          (default "executor" (td_agent d))
          PENDING
          (default [] (td_dependencies d))
          None None.

(** The [except] branch of [PlannerAgent.execute]. *)
Definition planner_on_exception (e : string) (s : AgentState) : AgentState :=
  set_is_complete true
    (set_next_agent "end"
       (set_errors (errors s ++ ["Planning error: " +:+ e]) s)).

(** [PlannerAgent.execute] *)
Definition planner_execute (w : World) (s : AgentState)
  : AgentState * list Event :=
  let prompt := planning_prompt (user_goal s) in
  match llm_invoke w prompt with
  | Raise e => (planner_on_exception e s, [LLMCall "planner" prompt])
  | Ret response =>
      match parse_plan w response with
      | Raise e => (planner_on_exception e s, [LLMCall "planner" prompt])
      | Ret task_dicts =>
          let tasks := map task_of_dict task_dicts in
          let s1 := set_task_plan tasks s in
          let s2 := set_current_task_index 0 s1 in
          let s3 := set_next_agent "executor" s2 in
          (set_iteration_count (iteration_count s3 + 1) s3,
           [LLMCall "planner" prompt])
      end
  end.

(** ** agents/memory_agent.py *)

(** Python truthiness of a [str]. *)
Definition nonempty (x : string) : bool :=
  match x with
  | EmptyString => false
  | String _ _ => true
  end.

(** [MemoryAgent.execute].  [_store_current_context] writes the goal and the
    task results to the vector store and catches its own exceptions; it
    shows in the trace as [MemoryStored]. *)
Definition memory_execute (w : World) (s : AgentState)
  : AgentState * list Event :=
  let s1 :=
    if nonempty (user_input s)
    then set_retrieved_context
           (Some (retrieve_relevant_context w (user_input s))) s
    else s in
  let s2 := set_conversation_history
              (conversation_history s1 ++
                 [{| role := "user"; content := user_input s1 |}]) s1 in
  let s3 :=
    match final_output s2 with
    | Some out =>
        if nonempty out
        then set_conversation_history
               (conversation_history s2 ++
                  [{| role := "assistant"; content := out |}]) s2
        else s2
    | None => s2
    end in
  let s4 :=
    match get_stats_raises w with
    | Some e => set_warnings (warnings s3 ++ ["Memory error: " +:+ e]) s3
    | None => s3
    end in
  (s4, [MemoryStored (user_goal s)]).

(** ** core/orchestrator.py *)

(** The nodes of the graph built by [_build_workflow], and its [END]. *)
Inductive Node : Type :=
  | planner
  | executor
  | validator
  | memory
  | END.

#[global] Instance Node_eq_dec : EqDecision Node.
Proof. solve_decision. Defined.

(** [_route_from_planner] *)
Definition _route_from_planner (s : AgentState) : string :=
  if String.eqb (next_agent s) "end" || bool_decide (task_plan s = [])
  then "end"
  else "executor".

(** [_route_from_executor] *)
Definition _route_from_executor (s : AgentState) : string :=
  let next_agent := next_agent s in
  if String.eqb next_agent "executor" then "executor"
  else if String.eqb next_agent "validator" then "validator"
  else "end".

(** [_route_from_validator] *)
Definition _route_from_validator (s : AgentState) : string :=
  if is_complete s then
    if validation_passed s then "memory" else "end"
  else "executor".

(** The edge dictionaries given to [add_conditional_edges]; a route outside
    the dictionary is an error of the graph library. *)
Definition planner_edges (route : string) : option Node :=
  if String.eqb route "executor" then Some executor
  else if String.eqb route "end" then Some END
  else None.

Definition executor_edges (route : string) : option Node :=
  if String.eqb route "executor" then Some executor
  else if String.eqb route "validator" then Some validator
  else if String.eqb route "end" then Some END
  else None.

Definition validator_edges (route : string) : option Node :=
  if String.eqb route "executor" then Some executor
  else if String.eqb route "memory" then Some memory
  else if String.eqb route "end" then Some END
  else None.

Section Orchestrator.

(** [self.tools] and the validator's threshold, fixed by [__init__]. *)
Variable tools : list ToolInfo.
Variable threshold : Q.

(** One step of the compiled graph: the node's agent runs on the state,
    then the node's outgoing edge is followed.  [None] when the graph
    has nothing to run ([END]) or the route names no edge. *)
Definition graph_step (w : World) (n : Node) (s : AgentState)
  : option (Node * AgentState * list Event) :=
  match n with
  | planner =>
      let '(s', tr) := planner_execute w s in
      n' ← planner_edges (_route_from_planner s'); Some (n', s', tr)
  | executor =>
      let '(s', tr) := executor_execute tools w s in
      n' ← executor_edges (_route_from_executor s'); Some (n', s', tr)
  | validator =>
      let '(s', tr) := validator_execute threshold w s in
      n' ← validator_edges (_route_from_validator s'); Some (n', s', tr)
  | memory =>
      let '(s', tr) := memory_execute w s in
      Some (END, s', tr)
  | END => None
  end.

(** [self.workflow.invoke(initial_state)]: the graph runs from its entry
    point until [END].  The graph library stops a run that takes more than
    [recursion_limit] steps with an exception; [worlds k] answers the
    external calls of step [k]. *)
Fixpoint graph_loop (fuel : nat) (worlds : nat -> World) (k : nat)
    (n : Node) (s : AgentState) (tr : list Event)
  : outcome (AgentState * list Event) :=
  match n with
  | END => Ret (s, tr)
  | _ =>
      match fuel with
      | O => Raise "Recursion limit reached"
      | S fuel' =>
          match graph_step (worlds k) n s with
          | None => Raise "Unknown route"
          | Some (n', s', tr') =>
              graph_loop fuel' worlds (S k) n' s' (tr ++ tr')
          end
      end
  end.

Definition workflow_invoke (recursion_limit : nat) (worlds : nat -> World)
    (initial_state : AgentState) : outcome (AgentState * list Event) :=
  graph_loop recursion_limit worlds 0 planner initial_state [].

(** The dictionary [run] returns. *)
Record RunResult : Type := {
  r_success : bool;
  r_output : option string;
  r_validation_passed : bool;
  r_iterations : nat;
  r_errors : list string;
  r_warnings : list string
}.

(** [WorkflowOrchestrator.run].  Every key read with [final_state.get] is
    present in the state, so the defaults of [get] are never used and
    [output] is [None] when no final output was compiled. *)
Definition run (recursion_limit : nat) (worlds : nat -> World)
    (user_input : string) : RunResult * list Event :=
  let initial_state := create_initial_state user_input in
  match workflow_invoke recursion_limit worlds initial_state with
  | Ret (final_state, tr) =>
      ({| r_success := true;
          r_output := final_output final_state;
          r_validation_passed := validation_passed final_state;
          r_iterations := iteration_count final_state;
          r_errors := errors final_state;
          r_warnings := warnings final_state |}, tr)
  | Raise e =>
      ({| r_success := false;
          r_output := Some ("Workflow failed: " +:+ e);
          r_validation_passed := false;
          r_iterations := 0;
          r_errors := [e];
          r_warnings := [] |}, [])
  end.

(** The states a run can be in: the initial state at the entry point, and
    every state a graph step leads to, whatever the collaborators
    answer. *)
Inductive reachable (input : string) : Node -> AgentState -> Prop :=
  | reachable_init : reachable input planner (create_initial_state input)
  | reachable_step n s w n' s' tr :
      reachable input n s ->
      graph_step w n s = Some (n', s', tr) ->
      reachable input n' s'.

End Orchestrator.

(** * Vocabulary of the properties, and concrete collaborators *)

(** ** Concrete collaborators used in the examples *)

Module Demo.

Definition tools : list ToolInfo :=
  [ {| tool_name_of := "calculator";
       tool_description_of := "Evaluate mathematical expressions safely." |};
    {| tool_name_of := "file_reader";
       tool_description_of := "Read files." |} ].

(** The validator's default threshold. *)
Definition threshold : Q := 8 # 10.

Definition task (i d : string) (st : TaskStatus) (deps : list string)
    (r e : option string) : Task.t :=
  Task.mk i d "executor" st deps r e.

(** A state in the middle of a run, with the given plan and cursor. *)
Definition state_with (plan : list Task.t) (cursor : nat) : AgentState :=
  set_next_agent "executor"
    (set_current_task_index cursor
       (set_task_plan plan (create_initial_state "goal"))).

(** A world whose model answers [response] to every prompt, whose tools
    all return [tool_result], whose plan parser returns [plan] and whose
    scorer verdict is [verdict]. *)
Definition world (response : string) (tool_result : outcome ToolResult)
    (plan : outcome (list TaskDict)) (verdict : ValidationResult) : World :=
  {| llm_invoke := fun _ => Ret response;
     tool_execute := fun _ _ => tool_result;
     parse_plan := fun _ => plan;
     parse_validation := fun _ => verdict;
     retrieve_relevant_context := fun _ => "No relevant past context found";
     get_stats_raises := None |}.

Definition tool_ok (r : string) : outcome ToolResult :=
  Ret {| success := true; tr_result := Some r; tr_error := None |}.

Definition tool_failed (e : string) : outcome ToolResult :=
  Ret {| success := false; tr_result := None; tr_error := Some e |}.

Definition rejected : ValidationResult :=
  {| valid := false; score := Finite 0; feedback := "goal not achieved" |}.

Definition accepted : ValidationResult :=
  {| valid := true; score := Finite 1; feedback := "goal achieved" |}.

End Demo.

(** A dependency is unmet when its id names no task of the plan, or names a
    task that is not COMPLETED. *)
Definition dep_unmet (s : AgentState) (dep_id : string) : Prop :=
  find_task (task_plan s) dep_id = None
  \/ exists d, find_task (task_plan s) dep_id = Some d
               /\ Task.status d <> COMPLETED.


Definition logs_unchanged (s s' : AgentState) : Prop :=
  tool_calls s' = tool_calls s /\ execution_results s' = execution_results s.


(** The four ways [ValidatorAgent.execute] ends. *)
Inductive validator_outcome (threshold : Q) (w : World) (s : AgentState)
  : AgentState -> list Event -> Prop :=
  | auto_validated :
      _is_simple_calculator_task s = true ->
      validator_outcome threshold w s (auto_validate s) []
  | nothing_to_validate :
      _is_simple_calculator_task s = false ->
      filter is_completed (task_plan s) = [] ->
      filter is_failed (task_plan s) = [] ->
      validator_outcome threshold w s
        (set_is_complete true
           (set_next_agent "end" (set_validation_passed false s))) []
  | validation_raised e tr :
      _is_simple_calculator_task s = false ->
      filter (fun ev => is_memory_event ev = true) tr = [] ->
      validator_outcome threshold w s (validator_on_exception e s) tr
  | verdict_given prompt response :
      _is_simple_calculator_task s = false ->
      llm_invoke w prompt = Ret response ->
      validator_outcome threshold w s
        (decide_next_action threshold (parse_validation w response) s)
        [LLMCall "validator" prompt].

Module DemoRun.

(** One task; the model answers every prompt in plain words, so no tool is
    used, and the scorer rejects every time. *)
Definition w : World :=
  Demo.world "The sum is eight."
    (Demo.tool_ok "8")
    (Ret [ {| td_id := "task_1"; td_description := "add 5 and 3";
              td_agent := None; td_dependencies := None |} ])
    Demo.rejected.

Definition s0 : AgentState := create_initial_state "5 + 3".
Definition s1 : AgentState := (planner_execute w s0).1.
Definition s2 : AgentState := (executor_execute Demo.tools w s1).1.

(** The state in which the validator is entered for the third time: two
    retries were used. *)
Definition exhausted : AgentState :=
  set_retry_count 2
    (set_warnings ["Retry 1: goal not achieved"; "Retry 2: goal not achieved"]
       s2).

End DemoRun.

Module DemoRetry.

Definition done_task : Task.t :=
  Demo.task "task_1" "add 5 and 3" COMPLETED []
    (Some ("Tool calculator executed successfully:" +:+ PyStr.nl +:+ "8")) None.

Definition failed_task : Task.t :=
  Demo.task "task_2" "double it" FAILED ["task_9"] None
    (Some "Dependencies not met for task_2").

(** The state after a first pass in which the first task was completed with
    the calculator and the second failed on its dependency. *)
Definition first_pass : AgentState :=
  set_errors ["Dependencies not met for task_2"]
    (set_execution_results
       {[ "task_1" := "Tool calculator executed successfully:" +:+ PyStr.nl +:+ "8" ]}
       (set_tool_calls
          [ {| tc_task_id := "task_1";
               tc_description := "add 5 and 3";
               tc_result := "Tool calculator executed successfully:"
                            +:+ PyStr.nl +:+ "8" |} ]
          (set_next_agent "validator"
             (Demo.state_with [done_task; failed_task] 1)))).

(** The scorer rejects. *)
Definition w_validate : World :=
  Demo.world "unused" (Demo.tool_ok "8") (Raise "unused") Demo.rejected.

(** In the retry pass the model asks for the calculator again, which now
    answers 9. *)
Definition w_retry : World :=
  Demo.world "TOOL: calculator | INPUT: 5 + 4" (Demo.tool_ok "9")
    (Raise "unused") Demo.rejected.

Definition retry_state : AgentState :=
  (validator_execute Demo.threshold w_validate first_pass).1.

End DemoRetry.

Module DemoEmpty.

(** The plan parser returns a plan with no task. *)
Definition w : World :=
  Demo.world "{ tasks: [] }" (Demo.tool_ok "8") (Ret []) Demo.rejected.

End DemoEmpty.

(** The tool log entry mentions the calculator: the word occurs in its result
    text, in any case of the letters. *)
Definition mentions_calculator (tool_call : ToolCall) : Prop :=
  PyStr.contains "calculator" (PyStr.lower (tc_result tool_call)) = true.

(** The conditions the code tests before it skips the scorer. *)
Definition fast_path_conditions (s : AgentState) : Prop :=
  Forall mentions_calculator (tool_calls s)
  /\ errors s = []
  /\ Forall is_completed (task_plan s).

Module DemoFast.


End DemoFast.

Definition has_completed_task (s : AgentState) : Prop :=
  exists x, x ∈ task_plan s /\ is_completed x.

(** ** Vocabulary of the further properties *)

(** What the plan producer fixes of a task: its id, description, agent and
    dependencies. *)
Definition task_spec (x : Task.t) : string * string * string * list string :=
  (Task.id x, Task.description x, Task.agent x, Task.dependencies x).

(** Every COMPLETED task has a result and every FAILED task an error. *)
Definition outcomes_recorded (s : AgentState) : Prop :=
  forall x, x ∈ task_plan s ->
    (Task.status x = COMPLETED -> is_Some (Task.result x))
    /\ (Task.status x = FAILED -> is_Some (Task.error x)).

(** The cursor points at a task, and every task before it is COMPLETED. *)
Definition cursor_on_task (s : AgentState) : Prop :=
  current_task_index s < length (task_plan s)
  /\ forall i x, i < current_task_index s -> task_plan s !! i = Some x ->
                 Task.status x = COMPLETED.

(** Some task of the plan ended COMPLETED or FAILED. *)
Definition something_to_validate (s : AgentState) : Prop :=
  exists x, x ∈ task_plan s
            /\ (Task.status x = COMPLETED \/ Task.status x = FAILED).

(** An upper bound on the graph steps a run still takes from node [n] in
    state [s], past the planner: each of the at most three passes over the
    plan takes a step per task and one validation, and the memory stage
    takes one. *)
Definition steps_left (n : Node) (s : AgentState) : nat :=
  let tasks := length (task_plan s) in
  match n with
  | planner => 3 * tasks + 8
  | executor =>
      (2 - retry_count s) * (tasks + 2) + (tasks - current_task_index s) + 3
  | validator => (2 - retry_count s) * (tasks + 2) + 2
  | memory => 1
  | END => 0
  end.



(** ** core/state.py: the helpers on the plan *)

Definition is_pending (x : Task.t) : Prop := Task.status x = PENDING.

#[global] Instance is_pending_dec x : Decision (is_pending x).
Proof. unfold is_pending. apply _. Defined.

(** [get_pending_tasks] *)
Definition get_pending_tasks (s : AgentState) : list Task.t :=
  filter is_pending (task_plan s).

(** [get_completed_tasks] *)
Definition get_completed_tasks (s : AgentState) : list Task.t :=
  filter is_completed (task_plan s).

(** Python truthiness of an optional text: [None] and the empty text are
    false. *)
Definition truthy (o : option string) : bool :=
  match o with
  | Some x => nonempty x
  | None => false
  end.

(** The body of the loop of [update_task_status] for the task it finds. *)
Definition apply_status (status : TaskStatus) (result error : option string)
    (x : Task.t) : Task.t :=
  let x1 := Task.set_status status x in
  let x2 := if truthy result then Task.set_result result x1 else x1 in
  if truthy error then Task.set_error error x2 else x2.

(** The loop of [update_task_status]: the first task with the id is
    updated, and the loop breaks. *)
Fixpoint update_first (task_id : string) (f : Task.t -> Task.t)
    (plan : list Task.t) : list Task.t :=
  match plan with
  | [] => []
  | x :: rest =>
      if String.eqb (Task.id x) task_id
      then f x :: rest
      else x :: update_first task_id f rest
  end.

(** [update_task_status] *)
Definition update_task_status (s : AgentState) (task_id : string)
    (status : TaskStatus) (result error : option string) : AgentState :=
  set_task_plan
    (update_first task_id (apply_status status result error) (task_plan s)) s.

(** ** tools/base_tool.py, tools/calculator.py, tools/python_executor.py *)

(** The dictionary a tool returns, with its [error_type] and [tool] keys
    (the [metadata] of a success is left out). *)
Record ToolResponse : Type := {
  response : ToolResult;
  error_type : option string;
  tool : string
}.

(** [BaseTool._success_response] *)
Definition _success_response (name result : string) : ToolResponse :=
  {| response := {| success := true; tr_result := Some result;
                    tr_error := None |};
     error_type := None;
     tool := name |}.

(** [BaseTool._error_response] *)
Definition _error_response (name error kind : string) : ToolResponse :=
  {| response := {| success := false; tr_result := None;
                    tr_error := Some error |};
     error_type := Some kind;
     tool := name |}.







Definition python_dangerous_keywords : list string :=
  ["import os"; "import sys"; "__import__"; "eval"; "compile"; "open";
   "file"; "input"; "raw_input"].

(** What compiling and running the code in the restricted environment
    gives: compilation errors, the captured output, or an exception. *)
Inductive RunOutcome : Type :=
  | CompilationErrors (errs : list string)
  | Output (text : string)
  | RaisedError (msg : string).

(** [PythonExecutorTool.execute]: the response, and the codes given to the
    restricted compiler (none, or one). *)
Definition python_execute (run_restricted : string -> RunOutcome)
    (code : string) : ToolResponse * list string :=
  let code_lower := PyStr.lower code in
  match List.find (fun keyword => PyStr.contains keyword code_lower)
                  python_dangerous_keywords with
  | Some keyword =>
      (_error_response "python_executor"
         ("Dangerous operation not allowed: " +:+ keyword) "SecurityError", [])
  | None =>
      (match run_restricted code with
       | CompilationErrors errs =>
           _error_response "python_executor"
             ("Compilation errors: " +:+ PyStr.join "; " errs)
             "CompilationError"
       | Output output =>
           _success_response "python_executor"
             (if nonempty output then output
              else "Code executed successfully (no output)")
       | RaisedError msg =>
           _error_response "python_executor" ("Execution error: " +:+ msg)
             "RuntimeError"
       end, [code])
  end.



(** * Properties *)

(** ** The string operations on examples *)

Example split_tool :
  PyStr.split "TOOL:" "I say TOOL: calculator | INPUT: 5 + 3"
  = ["I say "; " calculator | INPUT: 5 + 3"].
Proof. reflexivity. Qed.

Example split_at_end : PyStr.split "|" "a|b|" = ["a"; "b"; ""].
Proof. reflexivity. Qed.

Example strip_both : PyStr.strip ("  calculator " ++ PyStr.nl) = "calculator".
Proof. reflexivity. Qed.

Example lower_mixed : PyStr.lower "Tool Calculator" = "tool calculator".
Proof. reflexivity. Qed.

(** ** Helper lemmas *)

Lemma find_task_Some plan dep_id d :
  find_task plan dep_id = Some d -> d ∈ plan /\ Task.id d = dep_id.
Proof.
  unfold find_task. intros H. apply find_some in H as [Hin Heq].
  split.
  - by apply list_elem_of_In.
  - by apply String.eqb_eq.
Qed.

Lemma find_task_None plan dep_id :
  find_task plan dep_id = None <-> (forall d, d ∈ plan -> Task.id d <> dep_id).
Proof.
  unfold find_task. split.
  - intros H d Hin Heq.
    apply list_elem_of_In in Hin.
    pose proof (find_none _ _ H d Hin) as Hd. simpl in Hd.
    apply String.eqb_neq in Hd. contradiction.
  - intros H. destruct (find _ plan) as [d|] eqn:E; [|done].
    apply find_some in E as [Hin Heq].
    apply String.eqb_eq in Heq. apply list_elem_of_In in Hin.
    exfalso. by apply (H d).
Qed.

(** With unique ids, the task found for an id is the task with that id. *)
Lemma find_task_unique plan dep_id d :
  NoDup (map Task.id plan) -> d ∈ plan -> Task.id d = dep_id ->
  find_task plan dep_id = Some d.
Proof.
  unfold find_task. induction plan as [|x plan IH]; intros Hnd Hin Hid.
  - by apply elem_of_nil in Hin.
  - simpl in *. apply NoDup_cons in Hnd as [Hx Hnd].
    destruct (String.eqb (Task.id x) dep_id) eqn:E.
    + apply String.eqb_eq in E.
      apply elem_of_cons in Hin as [->|Hin]; [done|].
      exfalso. apply Hx. rewrite E, <- Hid.
      apply list_elem_of_fmap. by exists d.
    + apply String.eqb_neq in E.
      apply elem_of_cons in Hin as [->|Hin]; [done|]. by apply IH.
Qed.

Lemma check_dependencies_false task s :
  _check_dependencies task s = false
  <-> exists dep_id, dep_id ∈ Task.dependencies task /\ dep_unmet s dep_id.
Proof.
  unfold _check_dependencies, dep_unmet.
  induction (Task.dependencies task) as [|dep deps IH]; simpl.
  - split; [done|]. intros (dep_id & Hin & _). by apply elem_of_nil in Hin.
  - rewrite andb_false_iff, IH. split.
    + intros [H|(dep_id & Hin & H)].
      * exists dep. split; [left|].
        destruct (find_task (task_plan s) dep) as [d|]; [|by left].
        right. exists d. split; [done|].
        by apply bool_decide_eq_false in H.
      * exists dep_id. split; [by right|done].
    + intros (dep_id & Hin & H).
      apply elem_of_cons in Hin as [->|Hin].
      * left. destruct H as [->|(d & -> & Hd)]; [done|].
        by apply bool_decide_eq_false.
      * right. by exists dep_id.
Qed.

(** ** The execution step *)

Lemma lookup_update_task i f s x :
  task_plan s !! i = Some x ->
  task_plan (update_task i f s) !! i = Some (f x).
Proof.
  intros H. unfold update_task. simpl.
  by rewrite list_lookup_alter_eq, H.
Qed.

Lemma lookup_update_task_ne i j f s :
  i <> j -> task_plan (update_task i f s) !! j = task_plan s !! j.
Proof. intros H. unfold update_task. simpl. by apply list_lookup_alter_ne. Qed.

Lemma length_update_task i f s :
  length (task_plan (update_task i f s)) = length (task_plan s).
Proof. unfold update_task. simpl. apply length_alter. Qed.

(** The step taken when the dependencies of the current task are not met. *)
Lemma executor_execute_unmet tools w s task :
  task_plan s !! current_task_index s = Some task ->
  _check_dependencies task s = false ->
  executor_execute tools w s
  = (let error_msg := "Dependencies not met for " +:+ Task.id task in
     let s1 := update_task (current_task_index s)
                 (fun x => Task.set_error (Some error_msg)
                             (Task.set_status FAILED x)) s in
     (set_next_agent "validator" (set_errors (errors s1 ++ [error_msg]) s1),
      [])).
Proof.
  intros Hl Hd. unfold executor_execute. by rewrite Hl, Hd.
Qed.

(** The step taken when the dependencies are met and the model answers. *)
Lemma executor_execute_answered tools w s task llm_response :
  task_plan s !! current_task_index s = Some task ->
  _check_dependencies task s = true ->
  llm_invoke w (_build_execution_prompt tools task s) = Ret llm_response ->
  let result := (_execute_with_tools tools w llm_response).1 in
  let s' := (executor_execute tools w s).1 in
  (executor_execute tools w s).2
  = LLMCall "executor" (_build_execution_prompt tools task s)
      :: (_execute_with_tools tools w llm_response).2
  /\ task_plan s' !! current_task_index s
     = Some (Task.set_result (Some result) (Task.set_status COMPLETED task))
  /\ (forall j, j <> current_task_index s ->
                task_plan s' !! j = task_plan s !! j)
  /\ execution_results s'
     = <[Task.id task := result]> (execution_results s)
  /\ tool_calls s'
     = tool_calls s ++ [{| tc_task_id := Task.id task;
                           tc_description := Task.description task;
                           tc_result := result |}]
  /\ current_task_index s' = current_task_index s + 1
  /\ iteration_count s' = iteration_count s + 1
  /\ next_agent s'
     = (if decide (current_task_index s + 1 < length (task_plan s))
        then "executor" else "validator")
  /\ errors s' = errors s
  /\ retry_count s' = retry_count s.
Proof.
  intros Hl Hd Hllm. unfold executor_execute. rewrite Hl, Hd. simpl negb. cbv iota.
  change (_build_execution_prompt tools task
            (update_task (current_task_index s) (Task.set_status IN_PROGRESS) s))
    with (_build_execution_prompt tools task s).
  rewrite Hllm.
  destruct (_execute_with_tools tools w llm_response) as [result invoked].
  cbn [fst snd].
  set (i := current_task_index s) in *.
  assert (Hlen : forall f g,
             length (alter f i (alter g i (task_plan s))) = length (task_plan s)).
  { intros. by rewrite !length_alter. }
  repeat split.
  - destruct (decide _); simpl;
      rewrite !list_lookup_alter_eq, Hl; reflexivity.
  - intros j Hj. destruct (decide _); simpl;
      rewrite !list_lookup_alter_ne by done; reflexivity.
  - by destruct (decide _).
  - by destruct (decide _).
  - by destruct (decide _).
  - by destruct (decide _).
  - cbn [current_task_index set_iteration_count set_current_task_index
         set_tool_calls set_execution_results task_plan update_task
         set_task_plan].
    rewrite Hlen. fold i.
    by destruct (decide (i + 1 < length (task_plan s))).
  - by destruct (decide _).
  - by destruct (decide _).
Qed.

(** C6: for a task at the cursor, at any position of the plan, one of whose
    dependency ids is missing from the plan or names a task that is not
    COMPLETED, the execution step marks the task FAILED, appends the error
    text to [errors], sets the next stage to the validator and makes no
    external call: no tool is invoked (and the model is not consulted).
    The cursor, the tool log and the stored results are left as they were. *)
Theorem unmet_dependency_fails_task tools w s task dep_id :
  task_plan s !! current_task_index s = Some task ->
  dep_id ∈ Task.dependencies task ->
  dep_unmet s dep_id ->
  let error_msg := "Dependencies not met for " +:+ Task.id task in
  let s' := (executor_execute tools w s).1 in
  task_plan s' !! current_task_index s
    = Some (Task.set_error (Some error_msg) (Task.set_status FAILED task))
  /\ errors s' = errors s ++ [error_msg]
  /\ next_agent s' = "validator"
  /\ (executor_execute tools w s).2 = []
  /\ tool_calls s' = tool_calls s
  /\ execution_results s' = execution_results s
  /\ current_task_index s' = current_task_index s.
Proof.
  intros Hl Hin Hun.
  assert (Hd : _check_dependencies task s = false).
  { apply check_dependencies_false. by exists dep_id. }
  rewrite (executor_execute_unmet tools w s task Hl Hd). cbn [fst snd].
  split; [|by repeat split].
  cbn [task_plan set_next_agent set_errors].
  by rewrite (lookup_update_task _ _ _ _ Hl).
Qed.

(** The second task of a plan depends on an id that no task has. *)
Lemma unmet_dependency_fails_task_witness :
  let s := Demo.state_with
             [Demo.task "task_1" "add" COMPLETED [] (Some "8") None;
              Demo.task "task_2" "double" PENDING ["task_1"; "task_9"] None None]
             1 in
  let w := Demo.world "TOOL: calculator | INPUT: 8 * 2" (Demo.tool_ok "16")
             (Raise "unused") Demo.rejected in
  let s' := (executor_execute Demo.tools w s).1 in
  task_plan s' !! 1
    = Some (Demo.task "task_2" "double" FAILED ["task_1"; "task_9"] None
              (Some "Dependencies not met for task_2"))
  /\ errors s' = ["Dependencies not met for task_2"]
  /\ next_agent s' = "validator"
  /\ (executor_execute Demo.tools w s).2 = []
  /\ tool_calls s' = []
  /\ execution_results s' = ∅
  /\ current_task_index s' = 1.
Proof.
  intros s w.
  apply (unmet_dependency_fails_task Demo.tools w s
           (Demo.task "task_2" "double" PENDING ["task_1"; "task_9"] None None)
           "task_9").
  - reflexivity.
  - apply list_elem_of_In. simpl. auto.
  - left. reflexivity.
Defined.



(** The step taken when the dependencies are met and the model call raises. *)
Lemma executor_execute_raised tools w s task e :
  task_plan s !! current_task_index s = Some task ->
  _check_dependencies task s = true ->
  llm_invoke w (_build_execution_prompt tools task s) = Raise e ->
  let s' := (executor_execute tools w s).1 in
  (executor_execute tools w s).2
  = [LLMCall "executor" (_build_execution_prompt tools task s)]
  /\ task_plan s' !! current_task_index s
     = Some (Task.set_error (Some e) (Task.set_status FAILED task))
  /\ tool_calls s' = tool_calls s
  /\ execution_results s' = execution_results s
  /\ errors s' = errors s ++ ["Execution error: " +:+ e]
  /\ next_agent s' = "validator"
  /\ current_task_index s' = current_task_index s
  /\ retry_count s' = retry_count s.
Proof.
  intros Hl Hd Hllm. unfold executor_execute. rewrite Hl, Hd. simpl negb. cbv iota.
  change (_build_execution_prompt tools task
            (update_task (current_task_index s) (Task.set_status IN_PROGRESS) s))
    with (_build_execution_prompt tools task s).
  rewrite Hllm. cbn [fst snd]. unfold executor_on_exception.
  rewrite length_update_task.
  destruct (decide _) as [Hlt|Hge].
  - split; [done|]. split; [|by repeat split].
    cbn [task_plan set_next_agent set_errors update_task set_task_plan].
    by rewrite !list_lookup_alter_eq, Hl.
  - exfalso. apply Hge. by apply lookup_lt_Some with task.
Qed.



Lemma decide_next_action_logs threshold vr s :
  logs_unchanged s (decide_next_action threshold vr s).
Proof.
  unfold decide_next_action, logs_unchanged.
  destruct (_ && _); [done|]. by destruct (decide _).
Qed.

Lemma validator_execute_logs threshold w s :
  logs_unchanged s (validator_execute threshold w s).1.
Proof.
  unfold validator_execute, full_validation.
  destruct (_is_simple_calculator_task s); [done|].
  assert (H : forall p, logs_unchanged s
    (match p with
     | Raise e => (validator_on_exception e s, [])
     | Ret validation_prompt =>
         match llm_invoke w validation_prompt with
         | Raise e =>
             (validator_on_exception e s, [LLMCall "validator" validation_prompt])
         | Ret validation_response =>
             (decide_next_action threshold
                (parse_validation w validation_response) s,
              [LLMCall "validator" validation_prompt])
         end
     end).1).
  { intros [p|e]; [|done]. destruct (llm_invoke w p); [|done].
    apply decide_next_action_logs. }
  destruct (filter is_completed _), (filter is_failed _); try apply H. done.
Qed.

Lemma memory_execute_logs w s : logs_unchanged s (memory_execute w s).1.
Proof.
  unfold memory_execute, logs_unchanged. cbn [fst].
  destruct (get_stats_raises w); destruct (nonempty (user_input s));
    cbn; destruct (final_output s) as [o|]; cbn; try destruct (nonempty o); done.
Qed.




(** ** The tool log and the stored results *)

Lemma graph_step_agent tools threshold w n s n' s' tr :
  graph_step tools threshold w n s = Some (n', s', tr) ->
  match n with
  | planner => planner_execute w s = (s', tr)
  | executor => executor_execute tools w s = (s', tr)
  | validator => validator_execute threshold w s = (s', tr)
  | memory => memory_execute w s = (s', tr)
  | END => False
  end.
Proof.
  destruct n; cbn [graph_step]; intros H; [| | | |done].
  - destruct (planner_execute w s) as [s1 tr1].
    destruct (planner_edges _); by simplify_eq/=.
  - destruct (executor_execute tools w s) as [s1 tr1].
    destruct (executor_edges _); by simplify_eq/=.
  - destruct (validator_execute threshold w s) as [s1 tr1].
    destruct (validator_edges _); by simplify_eq/=.
  - destruct (memory_execute w s) as [s1 tr1]. by simplify_eq/=.
Qed.



(** ** The validation step *)

Lemma validator_execute_outcome threshold w s :
  validator_outcome threshold w s
    (validator_execute threshold w s).1 (validator_execute threshold w s).2.
Proof.
  unfold validator_execute, full_validation.
  destruct (_is_simple_calculator_task s) eqn:Hfast; [by constructor|].
  assert (H : forall p,
    let r := match p with
             | Raise e => (validator_on_exception e s, [])
             | Ret validation_prompt =>
                 match llm_invoke w validation_prompt with
                 | Raise e =>
                     (validator_on_exception e s,
                      [LLMCall "validator" validation_prompt])
                 | Ret validation_response =>
                     (decide_next_action threshold
                        (parse_validation w validation_response) s,
                      [LLMCall "validator" validation_prompt])
                 end
             end in
    validator_outcome threshold w s r.1 r.2).
  { intros [p|e]; [|by constructor].
    cbv zeta. destruct (llm_invoke w p) eqn:Hllm; by econstructor. }
  destruct (filter is_completed _) eqn:Hc, (filter is_failed _) eqn:Hf;
    try apply H.
  by constructor.
Qed.

(** The three ways the decision on a parsed verdict ends. *)
Lemma decide_next_action_cases threshold vr s :
  let s' := decide_next_action threshold vr s in
  (valid vr && float_ge (score vr) threshold = true
   /\ validation_passed s' = true /\ is_complete s' = true
   /\ next_agent s' = "end"
   /\ retry_count s' = retry_count s /\ task_plan s' = task_plan s
   /\ current_task_index s' = current_task_index s)
  \/ (valid vr && float_ge (score vr) threshold = false
      /\ retry_count s < 2
      /\ validation_passed s' = false /\ is_complete s' = is_complete s
      /\ next_agent s' = "executor"
      /\ retry_count s' = retry_count s + 1
      /\ task_plan s' = reset_failed_tasks (task_plan s)
      /\ current_task_index s' = 0)
  \/ (valid vr && float_ge (score vr) threshold = false
      /\ 2 <= retry_count s
      /\ validation_passed s' = false /\ is_complete s' = true
      /\ next_agent s' = "end"
      /\ retry_count s' = retry_count s /\ task_plan s' = task_plan s
      /\ current_task_index s' = current_task_index s
      /\ errors s' = errors s ++ ["Validation failed after max retries"]).
Proof.
  unfold decide_next_action.
  destruct (valid vr && float_ge (score vr) threshold).
  - left. by repeat split.
  - cbn [retry_count set_validation_result].
    destruct (decide (retry_count s < 2)).
    + right. left. by repeat split.
    + right. right. repeat split; try done. lia.
Qed.

Lemma lookup_reset_failed_tasks plan i x :
  plan !! i = Some x ->
  reset_failed_tasks plan !! i
  = Some (if decide (is_failed x) then Task.set_status PENDING x else x).
Proof.
  intros H. unfold reset_failed_tasks.
  change (map ?f plan) with (f <$> plan).
  by rewrite list_lookup_fmap, H.
Qed.

Lemma lookup_reset_not_failed plan i x :
  plan !! i = Some x -> Task.status x <> FAILED ->
  reset_failed_tasks plan !! i = Some x.
Proof.
  intros H Hst. rewrite (lookup_reset_failed_tasks _ _ _ H).
  by destruct (decide (is_failed x)).
Qed.

(** The validator either leaves the plan as it is, or, on a retry, applies
    the reset to it. *)
Lemma validator_execute_plan threshold w s :
  let s' := (validator_execute threshold w s).1 in
  (task_plan s' = task_plan s /\ next_agent s' = "end")
  \/ (task_plan s' = reset_failed_tasks (task_plan s)
      /\ next_agent s' = "executor" /\ retry_count s < 2
      /\ current_task_index s' = 0).
Proof.
  cbv zeta.
  destruct (validator_execute_outcome threshold w s)
    as [?|?|?|prompt response _ _]; try (by left).
  destruct (decide_next_action_cases threshold (parse_validation w response) s)
    as [(_ & _ & _ & Hn & _ & Hp & _)
       |[(_ & Hlt & _ & _ & Hn & _ & Hp & Hc)
        |(_ & _ & _ & _ & Hn & _ & Hp & _)]];
    [left|right|left]; by repeat split.
Qed.

(** C8: the retry reset changes nothing but the status of FAILED tasks.
    Every task of the plan is, after the reset, itself, or itself with the
    status PENDING if it was FAILED; a COMPLETED task (status, result and
    error) is the same before and after the reset, and before and after
    the whole validation step that performs it. *)
Theorem retry_reset_keeps_completed_tasks threshold w s i x :
  task_plan s !! i = Some x ->
  reset_failed_tasks (task_plan s) !! i
  = Some (if decide (is_failed x) then Task.set_status PENDING x else x)
  /\ (Task.status x = COMPLETED ->
      reset_failed_tasks (task_plan s) !! i = Some x
      /\ task_plan (validator_execute threshold w s).1 !! i = Some x)
  /\ (next_agent (validator_execute threshold w s).1 = "executor" ->
      task_plan (validator_execute threshold w s).1
      = reset_failed_tasks (task_plan s)).
Proof.
  intros Hl. split; [by apply lookup_reset_failed_tasks|].
  pose proof (validator_execute_plan threshold w s) as Hp. cbv zeta in Hp.
  split.
  - intros Hst.
    assert (Hr : reset_failed_tasks (task_plan s) !! i = Some x).
    { apply lookup_reset_not_failed; [done|]. rewrite Hst. discriminate. }
    split; [done|].
    destruct Hp as [[-> _]|[-> _]]; done.
  - intros Hnext. destruct Hp as [[_ Hend]|[Hp _]]; [|done].
    rewrite Hend in Hnext. discriminate.
Qed.

(** A task that was FAILED in the first pass is reset; the COMPLETED one
    stays as it is. *)
Lemma retry_reset_keeps_completed_tasks_witness :
  let done_task := Demo.task "task_1" "add" COMPLETED [] (Some "8") None in
  let failed_task :=
    Demo.task "task_2" "double" FAILED ["task_9"] None
      (Some "Dependencies not met for task_2") in
  let s := set_errors ["Dependencies not met for task_2"]
             (Demo.state_with [done_task; failed_task] 1) in
  let w := Demo.world "no" (Demo.tool_ok "8") (Raise "unused") Demo.rejected in
  reset_failed_tasks (task_plan s) !! 0 = Some done_task
  /\ (Task.status done_task = COMPLETED ->
      reset_failed_tasks (task_plan s) !! 0 = Some done_task
      /\ task_plan (validator_execute Demo.threshold w s).1 !! 0
         = Some done_task)
  /\ (next_agent (validator_execute Demo.threshold w s).1 = "executor" ->
      task_plan (validator_execute Demo.threshold w s).1
      = reset_failed_tasks (task_plan s)).
Proof.
  intros done_task failed_task s w.
  apply (retry_reset_keeps_completed_tasks Demo.threshold w s 0 done_task).
  reflexivity.
Defined.

(** ** The retry counter *)

Lemma planner_execute_retry_count w s :
  retry_count (planner_execute w s).1 = retry_count s.
Proof.
  unfold planner_execute.
  destruct (llm_invoke w _); [destruct (parse_plan w _)|]; done.
Qed.

Lemma executor_execute_retry_count tools w s :
  retry_count (executor_execute tools w s).1 = retry_count s.
Proof.
  destruct (task_plan s !! current_task_index s) as [task|] eqn:Hl.
  - destruct (_check_dependencies task s) eqn:Hd.
    + destruct (llm_invoke w (_build_execution_prompt tools task s))
        as [resp|e] eqn:Hllm.
      * by destruct (executor_execute_answered tools w s task resp Hl Hd Hllm)
          as (_ & _ & _ & _ & _ & _ & _ & _ & _ & ->).
      * by destruct (executor_execute_raised tools w s task e Hl Hd Hllm)
          as (_ & _ & _ & _ & _ & _ & _ & ->).
    + by rewrite (executor_execute_unmet tools w s task Hl Hd).
  - unfold executor_execute. by rewrite Hl.
Qed.

Lemma memory_execute_retry_count w s :
  retry_count (memory_execute w s).1 = retry_count s.
Proof.
  unfold memory_execute. cbn [fst].
  destruct (get_stats_raises w); destruct (nonempty (user_input s));
    cbn; destruct (final_output s) as [o|]; cbn; try destruct (nonempty o); done.
Qed.

(** The validator is the only writer of [retry_count]: it adds one, and
    only when the count is below 2. *)
Lemma validator_execute_retry_count threshold w s :
  let s' := (validator_execute threshold w s).1 in
  retry_count s' = retry_count s
  \/ (retry_count s < 2 /\ retry_count s' = retry_count s + 1).
Proof.
  cbv zeta.
  destruct (validator_execute_outcome threshold w s)
    as [?|?|?|prompt response _ _]; try (by left).
  destruct (decide_next_action_cases threshold (parse_validation w response) s)
    as [(_ & _ & _ & _ & Hr & _)
       |[(_ & Hlt & _ & _ & _ & Hr & _)
        |(_ & _ & _ & _ & _ & Hr & _)]];
    [by left|by right|by left].
Qed.

Lemma graph_step_retry_count tools threshold w n s n' s' tr :
  graph_step tools threshold w n s = Some (n', s', tr) ->
  retry_count s' = retry_count s
  \/ (retry_count s < 2 /\ retry_count s' = retry_count s + 1).
Proof.
  intros H. apply graph_step_agent in H. destruct n; [| | | |done].
  - left. pose proof (planner_execute_retry_count w s) as L.
    by rewrite H in L.
  - left. pose proof (executor_execute_retry_count tools w s) as L.
    by rewrite H in L.
  - pose proof (validator_execute_retry_count threshold w s) as L.
    by rewrite H in L.
  - left. pose proof (memory_execute_retry_count w s) as L.
    by rewrite H in L.
Qed.

(** C7: in every reachable state of a run [retry_count] is at most 2, and
    no stage transition out of a reachable state decreases it (nor takes
    it above 2). *)
Theorem retry_count_monotone_and_bounded tools threshold input n s :
  reachable tools threshold input n s ->
  retry_count s <= 2
  /\ forall w n' s' tr,
       graph_step tools threshold w n s = Some (n', s', tr) ->
       retry_count s <= retry_count s' /\ retry_count s' <= 2.
Proof.
  intros Hreach.
  assert (Hb : retry_count s <= 2).
  { induction Hreach as [|n s w n' s' tr _ IH Hstep]; [cbn; lia|].
    destruct (graph_step_retry_count _ _ _ _ _ _ _ _ Hstep) as [->|[? ->]];
      lia. }
  split; [done|]. intros w n' s' tr Hstep.
  destruct (graph_step_retry_count _ _ _ _ _ _ _ _ Hstep) as [->|[? ->]]; lia.
Qed.

(** ** A run whose validation never passes *)

Lemma reachable_s1 :
  reachable Demo.tools Demo.threshold "5 + 3" executor DemoRun.s1.
Proof.
  apply (reachable_step _ _ _ planner DemoRun.s0 DemoRun.w executor DemoRun.s1
           (planner_execute DemoRun.w DemoRun.s0).2).
  - apply reachable_init.
  - reflexivity.
Qed.

Lemma reachable_s2 :
  reachable Demo.tools Demo.threshold "5 + 3" validator DemoRun.s2.
Proof.
  apply (reachable_step _ _ _ executor DemoRun.s1 DemoRun.w validator DemoRun.s2
           (executor_execute Demo.tools DemoRun.w DemoRun.s1).2).
  - apply reachable_s1.
  - vm_compute. reflexivity.
Qed.

(** After the plan and one execution step. *)
Lemma retry_count_monotone_and_bounded_witness :
  retry_count DemoRun.s2 <= 2
  /\ forall w n' s' tr,
       graph_step Demo.tools Demo.threshold w validator DemoRun.s2
       = Some (n', s', tr) ->
       retry_count DemoRun.s2 <= retry_count s' /\ retry_count s' <= 2.
Proof.
  apply (retry_count_monotone_and_bounded Demo.tools Demo.threshold "5 + 3"
           validator DemoRun.s2).
  apply reachable_s2.
Defined.


(** ** Where the run goes after validation *)

Lemma validator_execute_passed threshold w s :
  validation_passed (validator_execute threshold w s).1 = true ->
  is_complete (validator_execute threshold w s).1 = true.
Proof.
  destruct (validator_execute_outcome threshold w s)
    as [?|?|?|prompt response _ _]; try done.
  destruct (decide_next_action_cases threshold (parse_validation w response) s)
    as [(_ & _ & Hc & _)
       |[(_ & _ & Hp & _)
        |(_ & _ & Hp & _)]]; [done| |]; rewrite Hp; discriminate.
Qed.

Lemma validator_execute_exhausted threshold w s :
  validation_passed (validator_execute threshold w s).1 = false ->
  2 <= retry_count s ->
  is_complete (validator_execute threshold w s).1 = true
  /\ retry_count (validator_execute threshold w s).1 = retry_count s.
Proof.
  destruct (validator_execute_outcome threshold w s)
    as [?|?|?|prompt response _ _]; try done.
  destruct (decide_next_action_cases threshold (parse_validation w response) s)
    as [(_ & Hp & _)
       |[(_ & Hlt & _)
        |(_ & _ & _ & Hc & _ & Hr & _)]]; intros Hpassed Hge.
  - rewrite Hp in Hpassed. discriminate.
  - lia.
  - done.
Qed.

Lemma validator_execute_no_memory_event threshold w s :
  filter (fun ev => is_memory_event ev = true)
         (validator_execute threshold w s).2 = [].
Proof.
  by destruct (validator_execute_outcome threshold w s).
Qed.

(** C2, as the code has it: a validation that ends with a passed verdict is
    followed by the memory stage, which stores the session and leads to the
    end of the run; a validation that ends with a failed verdict after the
    retry budget is used up leads from the validator straight to the end of
    the run, and the memory stage does not run. *)
Theorem validator_routes_to_memory_only_when_passed tools threshold w s :
  let s' := (validator_execute threshold w s).1 in
  let tr := (validator_execute threshold w s).2 in
  (validation_passed s' = true ->
   graph_step tools threshold w validator s = Some (memory, s', tr)
   /\ forall w', graph_step tools threshold w' memory s'
                 = Some (END, (memory_execute w' s').1,
                         [MemoryStored (user_goal s')]))
  /\ (validation_passed s' = false -> 2 <= retry_count s ->
      graph_step tools threshold w validator s = Some (END, s', tr)
      /\ filter (fun ev => is_memory_event ev = true) tr = []).
Proof.
  cbv zeta. split.
  - intros Hp. pose proof (validator_execute_passed threshold w s Hp) as Hc.
    split; [|done].
    cbn [graph_step]. destruct (validator_execute threshold w s) as [s' tr].
    cbn [fst snd] in *. unfold _route_from_validator. by rewrite Hc, Hp.
  - intros Hp Hge.
    destruct (validator_execute_exhausted threshold w s Hp Hge) as [Hc _].
    split; [|apply validator_execute_no_memory_event].
    cbn [graph_step]. destruct (validator_execute threshold w s) as [s' tr].
    cbn [fst snd] in *. unfold _route_from_validator. by rewrite Hc, Hp.
Qed.

(** C2 as stated fails: the validator is entered with both retries used, the
    scorer rejects, and the graph goes from the validator to its end; the
    whole run, from the goal to the end, never reaches the memory stage. *)
Lemma exhausted_retries_skip_memory :
  retry_count DemoRun.exhausted = 2
  /\ validation_passed
       (validator_execute Demo.threshold DemoRun.w DemoRun.exhausted).1 = false
  /\ (exists s' tr,
        graph_step Demo.tools Demo.threshold DemoRun.w validator DemoRun.exhausted
        = Some (END, s', tr))
  /\ graph_step Demo.tools Demo.threshold DemoRun.w validator DemoRun.exhausted
     <> Some (memory,
              (validator_execute Demo.threshold DemoRun.w DemoRun.exhausted).1,
              (validator_execute Demo.threshold DemoRun.w DemoRun.exhausted).2)
  /\ (let r := run Demo.tools Demo.threshold 25 (fun _ => DemoRun.w) "5 + 3" in
      r_success r.1 = true
      /\ r_validation_passed r.1 = false
      /\ r_errors r.1 = ["Validation failed after max retries"]
      /\ r_warnings r.1
         = ["Retry 1: goal not achieved"; "Retry 2: goal not achieved"]
      /\ filter (fun ev => is_memory_event ev = true) r.2 = []).
Proof.
  split; [reflexivity|]. split; [reflexivity|]. split; [|split].
  - eexists _, _. vm_compute. reflexivity.
  - vm_compute. discriminate.
  - vm_compute. by repeat split.
Qed.

(** For the failed run of [DemoRun]: the third validation ends the run
    without the memory stage. *)
Lemma validator_routes_to_memory_only_when_passed_witness :
  graph_step Demo.tools Demo.threshold DemoRun.w validator DemoRun.exhausted
  = Some (END,
          (validator_execute Demo.threshold DemoRun.w DemoRun.exhausted).1,
          (validator_execute Demo.threshold DemoRun.w DemoRun.exhausted).2)
  /\ filter (fun ev => is_memory_event ev = true)
            (validator_execute Demo.threshold DemoRun.w DemoRun.exhausted).2
     = [].
Proof.
  apply (proj2 (validator_routes_to_memory_only_when_passed
                  Demo.tools Demo.threshold DemoRun.w DemoRun.exhausted)).
  - reflexivity.
  - vm_compute. lia.
Defined.

(** ** The retry pass *)

(** C3, as the code has it: a failed validation with retries remaining
    puts the cursor back to 0, turns FAILED tasks to PENDING and leaves the
    other tasks as they are; and the execution step runs the task at the
    cursor whatever its status.  A COMPLETED task at the cursor whose
    dependencies are met is executed again: the model is consulted, the tool
    it selects is invoked, and the task's result is overwritten by the new
    result. *)
Theorem retry_reexecutes_completed_tasks
    tools threshold wv s we sx task llm_response :
  next_agent (validator_execute threshold wv s).1 = "executor" ->
  task_plan sx !! current_task_index sx = Some task ->
  Task.status task = COMPLETED ->
  _check_dependencies task sx = true ->
  llm_invoke we (_build_execution_prompt tools task sx) = Ret llm_response ->
  let s1 := (validator_execute threshold wv s).1 in
  let result := (_execute_with_tools tools we llm_response).1 in
  (current_task_index s1 = 0
   /\ task_plan s1 = reset_failed_tasks (task_plan s)
   /\ forall x, task_plan s !! 0 = Some x -> Task.status x = COMPLETED ->
                task_plan s1 !! current_task_index s1 = Some x)
  /\ (executor_execute tools we sx).2
     = LLMCall "executor" (_build_execution_prompt tools task sx)
         :: (_execute_with_tools tools we llm_response).2
  /\ task_plan (executor_execute tools we sx).1 !! current_task_index sx
     = Some (Task.set_result (Some result) task)
  /\ execution_results (executor_execute tools we sx).1 !! Task.id task
     = Some result.
Proof.
  intros Hnext Hl Hst Hd Hllm. cbv zeta. split.
  - pose proof (validator_execute_plan threshold wv s) as Hp. cbv zeta in Hp.
    destruct Hp as [[_ Hend]|(Hp & _ & _ & Hc)].
    { rewrite Hend in Hnext. discriminate. }
    rewrite Hc, Hp. repeat split.
    intros x Hx Hcomp. apply lookup_reset_not_failed; [done|].
    rewrite Hcomp. discriminate.
  - destruct (executor_execute_answered tools we sx task llm_response Hl Hd Hllm)
      as (Htr & Htask & _ & Hres & _).
    split; [done|]. split.
    + rewrite Htask. f_equal. destruct task. cbn in *. by subst.
    + rewrite Hres. apply lookup_insert_eq.
Qed.

(** The retry pass of [DemoRetry]: the first task, completed in the first
    pass, is at the cursor again. *)
Lemma retry_reexecutes_completed_tasks_witness :
  let result := "Tool calculator executed successfully:" +:+ PyStr.nl +:+ "9" in
  (current_task_index DemoRetry.retry_state = 0
   /\ task_plan DemoRetry.retry_state
      = reset_failed_tasks (task_plan DemoRetry.first_pass)
   /\ forall x, task_plan DemoRetry.first_pass !! 0 = Some x ->
                Task.status x = COMPLETED ->
                task_plan DemoRetry.retry_state
                  !! current_task_index DemoRetry.retry_state = Some x)
  /\ (executor_execute Demo.tools DemoRetry.w_retry DemoRetry.retry_state).2
     = [LLMCall "executor"
          (_build_execution_prompt Demo.tools DemoRetry.done_task
             DemoRetry.retry_state);
        ToolInvoked "calculator" "5 + 4"]
  /\ task_plan
       (executor_execute Demo.tools DemoRetry.w_retry DemoRetry.retry_state).1
       !! 0
     = Some (Task.set_result (Some result) DemoRetry.done_task)
  /\ execution_results
       (executor_execute Demo.tools DemoRetry.w_retry DemoRetry.retry_state).1
       !! "task_1"
     = Some result.
Proof.
  apply (retry_reexecutes_completed_tasks Demo.tools Demo.threshold
           DemoRetry.w_validate DemoRetry.first_pass
           DemoRetry.w_retry DemoRetry.retry_state DemoRetry.done_task
           "TOOL: calculator | INPUT: 5 + 4");
    reflexivity.
Defined.

(** C3 as stated fails: the first task is COMPLETED when the validation
    fails with retries remaining; in the retry pass its tool is invoked
    again and its result is overwritten. *)
Lemma completed_task_executed_again :
  let s2 :=
    (executor_execute Demo.tools DemoRetry.w_retry DemoRetry.retry_state).1 in
  (Task.status <$> task_plan DemoRetry.first_pass !! 0) = Some COMPLETED
  /\ retry_count DemoRetry.first_pass = 0
  /\ next_agent DemoRetry.retry_state = "executor"
  /\ retry_count DemoRetry.retry_state = 1
  /\ (Task.status <$> task_plan DemoRetry.retry_state !! 1) = Some PENDING
  /\ ToolInvoked "calculator" "5 + 4"
       ∈ (executor_execute Demo.tools DemoRetry.w_retry DemoRetry.retry_state).2
  /\ (Task.result <$> task_plan DemoRetry.first_pass !! 0)
     = Some (Some ("Tool calculator executed successfully:" +:+ PyStr.nl +:+ "8"))
  /\ (Task.result <$> task_plan s2 !! 0)
     = Some (Some ("Tool calculator executed successfully:" +:+ PyStr.nl +:+ "9"))
  /\ (Task.result <$> task_plan s2 !! 0)
     <> (Task.result <$> task_plan DemoRetry.first_pass !! 0).
Proof.
  cbv zeta. repeat split; try reflexivity.
  - apply list_elem_of_In. vm_compute. auto.
  - vm_compute. discriminate.
Qed.

(** ** An empty plan *)

(** C4, as the code has it: when the plan producer returns zero tasks, the
    graph goes from the planner to its end, so the execution stage never
    runs, and [run] reports [success = True] with no output,
    [validation_passed = False] and one iteration; the final state's
    [is_complete] flag is still [False]. *)
Theorem empty_plan_ends_run tools threshold recursion_limit worlds input response :
  0 < recursion_limit ->
  llm_invoke (worlds 0) (planning_prompt input) = Ret response ->
  parse_plan (worlds 0) response = Ret [] ->
  let s1 := (planner_execute (worlds 0) (create_initial_state input)).1 in
  graph_step tools threshold (worlds 0) planner (create_initial_state input)
  = Some (END, s1, [LLMCall "planner" (planning_prompt input)])
  /\ workflow_invoke tools threshold recursion_limit worlds
       (create_initial_state input)
     = Ret (s1, [LLMCall "planner" (planning_prompt input)])
  /\ is_complete s1 = false
  /\ run tools threshold recursion_limit worlds input
     = ({| r_success := true;
           r_output := None;
           r_validation_passed := false;
           r_iterations := 1;
           r_errors := [];
           r_warnings := [] |},
        [LLMCall "planner" (planning_prompt input)]).
Proof.
  intros Hlimit Hllm Hparse. cbv zeta.
  assert (Hplan : planner_execute (worlds 0) (create_initial_state input)
                  = (set_iteration_count 1
                       (set_next_agent "executor"
                          (set_current_task_index 0
                             (set_task_plan [] (create_initial_state input)))),
                     [LLMCall "planner" (planning_prompt input)])).
  { unfold planner_execute. cbn [user_goal create_initial_state].
    by rewrite Hllm, Hparse. }
  assert (Hstep :
    graph_step tools threshold (worlds 0) planner (create_initial_state input)
    = Some (END, (planner_execute (worlds 0) (create_initial_state input)).1,
            [LLMCall "planner" (planning_prompt input)])).
  { cbn [graph_step]. by rewrite Hplan. }
  assert (Hinv :
    workflow_invoke tools threshold recursion_limit worlds
      (create_initial_state input)
    = Ret ((planner_execute (worlds 0) (create_initial_state input)).1,
           [LLMCall "planner" (planning_prompt input)])).
  { unfold workflow_invoke. destruct recursion_limit as [|fuel]; [lia|].
    cbn [graph_loop]. rewrite Hstep. by destruct fuel. }
  split; [done|]. split; [done|]. split; [by rewrite Hplan|].
  unfold run. rewrite Hinv. by rewrite Hplan.
Qed.

Lemma empty_plan_ends_run_witness :
  let s1 := (planner_execute DemoEmpty.w (create_initial_state "nothing")).1 in
  graph_step Demo.tools Demo.threshold DemoEmpty.w planner
    (create_initial_state "nothing")
  = Some (END, s1, [LLMCall "planner" (planning_prompt "nothing")])
  /\ workflow_invoke Demo.tools Demo.threshold 25 (fun _ => DemoEmpty.w)
       (create_initial_state "nothing")
     = Ret (s1, [LLMCall "planner" (planning_prompt "nothing")])
  /\ is_complete s1 = false
  /\ run Demo.tools Demo.threshold 25 (fun _ => DemoEmpty.w) "nothing"
     = ({| r_success := true;
           r_output := None;
           r_validation_passed := false;
           r_iterations := 1;
           r_errors := [];
           r_warnings := [] |},
        [LLMCall "planner" (planning_prompt "nothing")]).
Proof.
  apply (empty_plan_ends_run Demo.tools Demo.threshold 25
           (fun _ => DemoEmpty.w) "nothing" "{ tasks: [] }").
  - lia.
  - reflexivity.
  - reflexivity.
Defined.

(** C4 as stated fails: with a plan of zero tasks the run ends after the
    planner, but its result has [success = True], not [False], and the
    final state is not marked complete. *)
Lemma empty_plan_reports_success :
  let r := run Demo.tools Demo.threshold 25 (fun _ => DemoEmpty.w) "nothing" in
  parse_plan DemoEmpty.w "{ tasks: [] }" = Ret []
  /\ r_success r.1 = true
  /\ r_success r.1 <> false
  /\ (exists s tr,
        workflow_invoke Demo.tools Demo.threshold 25 (fun _ => DemoEmpty.w)
          (create_initial_state "nothing") = Ret (s, tr)
        /\ task_plan s = []
        /\ is_complete s = false).
Proof.
  cbv zeta. split; [reflexivity|]. split; [reflexivity|]. split.
  - vm_compute. discriminate.
  - eexists _, _. split; [reflexivity|]. split; reflexivity.
Qed.

(** ** The fast path of the validator *)

Lemma filter_all_length {A} (P : A -> Prop) `{!forall x, Decision (P x)}
    (l : list A) :
  length (filter P l) = length l <-> Forall P l.
Proof.
  induction l as [|x l IH].
  - split; [constructor|done].
  - rewrite filter_cons. destruct (decide (P x)) as [Hx|Hx].
    + cbn [length]. split.
      * intros Hlen. constructor; [done|]. apply IH. lia.
      * intros Hall. apply Forall_cons in Hall as [_ Hall].
        f_equal. by apply IH.
    + split.
      * intros Hlen. pose proof (length_filter P l) as Hle.
        cbn [length] in Hlen. lia.
      * intros Hall. by apply Forall_cons in Hall as [? _].
Qed.

Lemma is_simple_calculator_task_spec s :
  _is_simple_calculator_task s = true <-> fast_path_conditions s.
Proof.
  unfold _is_simple_calculator_task, fast_path_conditions, mentions_calculator.
  rewrite !andb_true_iff, !bool_decide_eq_true, forallb_forall,
    filter_all_length, !Forall_forall.
  split.
  - intros [[Hcalls Herr] Hplan]. repeat split; try done.
    intros x Hx. apply Hcalls. by apply list_elem_of_In.
  - intros (Hcalls & Herr & Hplan). repeat split; try done.
    intros x Hx. apply Hcalls. by apply list_elem_of_In.
Qed.




(** ** The tool log in the states in which the validator is entered *)

Lemma alter_failed_completed (plan : list Task.t) i (f : Task.t -> Task.t) x :
  (forall y, Task.status (f y) <> COMPLETED) ->
  x ∈ alter f i plan -> is_completed x -> x ∈ plan.
Proof.
  intros Hf Hin Hc. apply list_elem_of_lookup in Hin as [j Hj].
  rewrite list_lookup_alter in Hj. destruct (decide (i = j)) as [->|Hne].
  - destruct (plan !! j) as [y|] eqn:E; [|done]. cbn in Hj. simplify_eq.
    by destruct (Hf y).
  - apply list_elem_of_lookup. by exists j.
Qed.

Lemma executor_execute_completed tools w s :
  let s' := (executor_execute tools w s).1 in
  length (task_plan s') = length (task_plan s)
  /\ (tool_calls s' <> []
      \/ (tool_calls s' = tool_calls s
          /\ forall x, x ∈ task_plan s' -> is_completed x -> x ∈ task_plan s)).
Proof.
  cbv zeta. unfold executor_execute.
  destruct (task_plan s !! current_task_index s) as [task|] eqn:Hl;
    [|by split; [|right]].
  destruct (_check_dependencies task s) eqn:Hd; cbn [negb].
  - destruct (llm_invoke w _) as [resp|e].
    + destruct (_execute_with_tools tools w resp) as [result invoked].
      split.
      * destruct (decide _); cbn; by rewrite !length_alter.
      * left. destruct (decide _); cbn; by destruct (tool_calls s).
    + cbn [fst]. unfold executor_on_exception.
      destruct (decide _); cbn; rewrite ?length_alter; (split; [done|]);
        right; (split; [done|]); intros x Hx Hc.
      * apply alter_failed_completed in Hx; [|done|done].
        by apply alter_failed_completed in Hx.
      * by apply alter_failed_completed in Hx.
  - cbn. rewrite length_alter. split; [done|]. right. split; [done|].
    intros x Hx Hc. by apply alter_failed_completed in Hx.
Qed.

Lemma reset_failed_tasks_completed plan x :
  x ∈ reset_failed_tasks plan -> is_completed x -> x ∈ plan.
Proof.
  unfold reset_failed_tasks. intros Hin Hc.
  apply list_elem_of_In, in_map_iff in Hin as (y & Hy & Hin).
  apply list_elem_of_In in Hin.
  destruct (decide (is_failed y)); by subst.
Qed.

Lemma memory_execute_plan w s :
  task_plan (memory_execute w s).1 = task_plan s.
Proof.
  unfold memory_execute. cbn [fst].
  destruct (get_stats_raises w); destruct (nonempty (user_input s));
    cbn; destruct (final_output s) as [o|]; cbn; try destruct (nonempty o); done.
Qed.

(** While the graph is in the executor or the validator the plan is not
    empty, and a plan with a COMPLETED task comes with a tool log that is
    not empty. *)
Lemma reachable_logged tools threshold input n s :
  reachable tools threshold input n s ->
  (n = executor \/ n = validator -> task_plan s <> [])
  /\ (has_completed_task s -> tool_calls s <> []).
Proof.
  induction 1 as [|n s w n' s' tr Hreach [IHplan IHlog] Hstep].
  - split; [by intros [?|?]|]. intros (x & Hx & _). by apply elem_of_nil in Hx.
  - pose proof Hstep as Hagent. apply graph_step_agent in Hagent.
    destruct n; [| | | |done].
    + (* planner *)
      cbn [graph_step] in Hstep. rewrite Hagent in Hstep.
      unfold planner_execute in Hagent. split.
      * intros Hn. unfold _route_from_planner in Hstep.
        destruct (bool_decide (task_plan s' = [])) eqn:E.
        { rewrite orb_true_r in Hstep. cbn in Hstep. simplify_eq.
          by destruct Hn. }
        by apply bool_decide_eq_false in E.
      * destruct (llm_invoke w _); [destruct (parse_plan w _) as [dicts|]|];
          simplify_eq; try done.
        intros (x & Hx & Hc). cbn in Hx.
        apply list_elem_of_In, in_map_iff in Hx as (d & <- & _). done.
    + (* executor *)
      pose proof (executor_execute_completed tools w s) as [Hlen Hlog].
      rewrite Hagent in Hlen, Hlog. cbn [fst] in Hlen, Hlog. split.
      * intros _ Hnil. apply IHplan; [by left|].
        rewrite Hnil in Hlen. by destruct (task_plan s).
      * intros (x & Hx & Hc). destruct Hlog as [?|[-> Hback]]; [done|].
        apply IHlog. exists x. split; [by apply Hback|done].
    + (* validator *)
      pose proof (validator_execute_plan threshold w s) as Hp.
      pose proof (validator_execute_logs threshold w s) as [Hcalls _].
      rewrite Hagent in Hp, Hcalls. cbn [fst] in Hp, Hcalls. rewrite Hcalls.
      assert (Hsame : forall x, x ∈ task_plan s' -> is_completed x ->
                                x ∈ task_plan s).
      { intros x Hx Hc. destruct Hp as [[Hp _]|[Hp _]]; rewrite Hp in Hx;
          [done|]. by apply reset_failed_tasks_completed in Hx. }
      split.
      * intros _ Hnil. apply IHplan; [by right|].
        destruct Hp as [[Hp _]|[Hp _]]; rewrite Hp in Hnil; [done|].
        unfold reset_failed_tasks in Hnil. by destruct (task_plan s).
      * intros (x & Hx & Hc). apply IHlog. exists x. split; [by apply Hsame|done].
    + (* memory *)
      cbn [graph_step] in Hstep. rewrite Hagent in Hstep. simplify_eq. split.
      * by intros [?|?].
      * pose proof (memory_execute_plan w s) as Hp.
        pose proof (memory_execute_logs w s) as [Hcalls _].
        rewrite Hagent in Hp, Hcalls. cbn [fst] in Hp, Hcalls.
        rewrite Hcalls. intros (x & Hx & Hc). apply IHlog. exists x.
        split; [by rewrite <- Hp|done].
Qed.

(** In a run, the validator takes the fast path only with a tool log that
    is not empty. *)
Lemma reachable_fast_path_tool_log tools threshold input s :
  reachable tools threshold input validator s ->
  _is_simple_calculator_task s = true ->
  tool_calls s <> [].
Proof.
  intros Hreach Hfast.
  destruct (reachable_logged _ _ _ _ _ Hreach) as [Hplan Hlog].
  apply is_simple_calculator_task_spec in Hfast as (_ & _ & Hall).
  destruct (task_plan s) as [|x plan] eqn:E; [by destruct Hplan; [right|]|].
  apply Hlog. exists x. rewrite E. split; [by left|].
  by apply Forall_cons in Hall as [? _].
Qed.

(** * Further properties of the code *)

(** ** The execution step, case by case *)

Ltac executor_cases tools w s :=
  unfold executor_execute;
  let task := fresh "task" in
  let Hl := fresh "Hl" in
  let Hd := fresh "Hd" in
  let Hllm := fresh "Hllm" in
  let Hexec := fresh "Hexec" in
  destruct (task_plan s !! current_task_index s) as [task|] eqn:Hl;
  [ destruct (_check_dependencies task s) eqn:Hd; cbn [negb];
    [ destruct (llm_invoke w _) as [?resp|?e] eqn:Hllm;
      [ destruct (_execute_with_tools tools w _) as [?result ?invoked] eqn:Hexec;
        destruct (decide _)
      | unfold executor_on_exception; destruct (decide _) ]
    | ]
  | ].

(** X1: when the model call of an execution step raises, the task at the
    cursor becomes FAILED with the exception text as its error, the text
    "Execution error: ..." is appended to [errors], the cursor and the
    iteration count stay, no tool is invoked, and the graph goes on to the
    validator. *)
Theorem model_exception_fails_task tools threshold w s task e :
  task_plan s !! current_task_index s = Some task ->
  _check_dependencies task s = true ->
  llm_invoke w (_build_execution_prompt tools task s) = Raise e ->
  let s' := (executor_execute tools w s).1 in
  task_plan s' !! current_task_index s
    = Some (Task.set_error (Some e) (Task.set_status FAILED task))
  /\ errors s' = errors s ++ ["Execution error: " +:+ e]
  /\ current_task_index s' = current_task_index s
  /\ iteration_count s' = iteration_count s
  /\ filter (fun ev => is_tool_event ev = true) (executor_execute tools w s).2 = []
  /\ graph_step tools threshold w executor s
     = Some (validator, s', (executor_execute tools w s).2).
Proof.
  intros Hl Hd Hllm. cbv zeta. cbn [graph_step].
  unfold executor_execute. rewrite Hl, Hd. cbn [negb].
  change (_build_execution_prompt tools task
            (update_task (current_task_index s) (Task.set_status IN_PROGRESS) s))
    with (_build_execution_prompt tools task s).
  rewrite Hllm. cbn [fst snd]. unfold executor_on_exception.
  rewrite length_update_task.
  destruct (decide _) as [Hlt|Hge].
  - split; [|by repeat split].
    cbn [task_plan set_next_agent set_errors update_task set_task_plan].
    by rewrite !list_lookup_alter_eq, Hl.
  - exfalso. apply Hge. by apply lookup_lt_Some with task.
Qed.

Lemma model_exception_fails_task_witness :
  let s := Demo.state_with
             [Demo.task "task_1" "add" PENDING [] None None] 0 in
  let w := {| llm_invoke := fun _ => Raise "quota exceeded";
              tool_execute := fun _ _ => Demo.tool_ok "8";
              parse_plan := fun _ => Raise "unused";
              parse_validation := fun _ => Demo.rejected;
              retrieve_relevant_context := fun _ => "";
              get_stats_raises := None |} in
  let s' := (executor_execute Demo.tools w s).1 in
  task_plan s' !! 0
    = Some (Demo.task "task_1" "add" FAILED [] None (Some "quota exceeded"))
  /\ errors s' = ["Execution error: quota exceeded"]
  /\ current_task_index s' = 0
  /\ iteration_count s' = 0
  /\ filter (fun ev => is_tool_event ev = true)
            (executor_execute Demo.tools w s).2 = []
  /\ graph_step Demo.tools Demo.threshold w executor s
     = Some (validator, s', (executor_execute Demo.tools w s).2).
Proof.
  intros s w.
  apply (model_exception_fails_task Demo.tools Demo.threshold w s
           (Demo.task "task_1" "add" PENDING [] None None) "quota exceeded");
    reflexivity.
Defined.

(** X2: an execution step changes no task but the one at the cursor, keeps
    the number of tasks, and keeps the id, description, agent and
    dependencies of every task; it moves the cursor by at most one and never
    touches the goal, the verdict, the retry count or the final output. *)
Theorem execution_step_frame tools w s :
  let s' := (executor_execute tools w s).1 in
  length (task_plan s') = length (task_plan s)
  /\ (forall j, j <> current_task_index s ->
                task_plan s' !! j = task_plan s !! j)
  /\ (forall j x, task_plan s !! j = Some x ->
        exists x', task_plan s' !! j = Some x'
                   /\ Task.id x' = Task.id x
                   /\ Task.description x' = Task.description x
                   /\ Task.agent x' = Task.agent x
                   /\ Task.dependencies x' = Task.dependencies x)
  /\ current_task_index s <= current_task_index s' <= current_task_index s + 1
  /\ user_goal s' = user_goal s
  /\ validation_result s' = validation_result s
  /\ validation_passed s' = validation_passed s
  /\ retry_count s' = retry_count s
  /\ is_complete s' = is_complete s
  /\ final_output s' = final_output s
  /\ warnings s' = warnings s.
Proof.
  cbv zeta.
  assert (Hgen : forall (f : Task.t -> Task.t) (plan : list Task.t) i,
    (forall x, Task.id (f x) = Task.id x
               /\ Task.description (f x) = Task.description x
               /\ Task.agent (f x) = Task.agent x
               /\ Task.dependencies (f x) = Task.dependencies x) ->
    forall j x, plan !! j = Some x ->
      exists x', alter f i plan !! j = Some x'
                 /\ Task.id x' = Task.id x
                 /\ Task.description x' = Task.description x
                 /\ Task.agent x' = Task.agent x
                 /\ Task.dependencies x' = Task.dependencies x).
  { intros f plan i Hf j x Hx. rewrite list_lookup_alter.
    destruct (decide (i = j)) as [->|Hne].
    - rewrite Hx. cbn. exists (f x). split; [done|]. apply Hf.
    - exists x. by rewrite Hx. }
  executor_cases tools w s; cbn;
    rewrite ?length_alter, ?list_alter_alter_eq;
    (split; [done|]);
    (split; [intros j Hj; by rewrite ?list_lookup_alter_ne by done|]);
    (split; [first [apply Hgen; by intros [] | intros j x Hx; by exists x]|]);
    (split; [lia|]); done.
Qed.

(** ** The edges of the graph *)

Lemma executor_execute_next_agent tools w s :
  next_agent (executor_execute tools w s).1 = "executor"
  \/ next_agent (executor_execute tools w s).1 = "validator".
Proof. executor_cases tools w s; cbn; auto. Qed.

(** X3: from every node the graph has a next node, whatever the state and
    the collaborators' answers (no route falls outside the edge
    dictionaries); the planner is followed by the executor or the end, the
    executor by the executor or the validator and never by the end, the
    validator by the executor, the memory stage or the end, and the memory
    stage by the end. *)
Theorem graph_step_total tools threshold w n s :
  n <> END ->
  exists n' s' tr,
    graph_step tools threshold w n s = Some (n', s', tr)
    /\ match n with
       | planner => n' = executor \/ n' = END
       | executor => n' = executor \/ n' = validator
       | validator => n' = executor \/ n' = memory \/ n' = END
       | memory => n' = END
       | END => False
       end.
Proof.
  intros Hn. destruct n; [| | | |done]; cbn [graph_step].
  - destruct (planner_execute w s) as [s' tr].
    unfold _route_from_planner. destruct (_ || _); cbn; eauto 10.
  - pose proof (executor_execute_next_agent tools w s) as Hnext.
    destruct (executor_execute tools w s) as [s' tr]. cbn [fst] in Hnext.
    unfold _route_from_executor. destruct Hnext as [->| ->]; cbn; eauto 10.
  - destruct (validator_execute threshold w s) as [s' tr].
    unfold _route_from_validator.
    destruct (is_complete s'); [destruct (validation_passed s')|]; cbn;
      eauto 10.
  - destruct (memory_execute w s) as [s' tr]. eauto 10.
Qed.

Lemma graph_step_total_witness :
  exists n' s' tr,
    graph_step Demo.tools Demo.threshold DemoRun.w executor DemoRun.s1
    = Some (n', s', tr)
    /\ (n' = executor \/ n' = validator).
Proof.
  apply (graph_step_total Demo.tools Demo.threshold DemoRun.w executor
           DemoRun.s1).
  discriminate.
Defined.

(** ** The lists that only grow *)

Lemma extends_refl {A} (l : list A) : exists k, l = l ++ k.
Proof. exists []. by rewrite app_nil_r. Qed.

Lemma extends_one {A} (l : list A) x : exists k, l ++ [x] = l ++ k.
Proof. by exists [x]. Qed.

Lemma extends_two {A} (l : list A) x y : exists k, (l ++ [x]) ++ [y] = l ++ k.
Proof. exists [x; y]. by rewrite <- app_assoc. Qed.

Create HintDb extends.
#[local] Hint Resolve extends_refl extends_one extends_two : extends.

(** X4: no stage removes or rewrites an entry of [errors], [warnings],
    [tool_calls] or [conversation_history]: across every graph step each of
    these lists is the old list with, possibly, entries added at its end. *)
Theorem logs_are_append_only tools threshold w n s n' s' tr :
  graph_step tools threshold w n s = Some (n', s', tr) ->
  (exists k, errors s' = errors s ++ k)
  /\ (exists k, warnings s' = warnings s ++ k)
  /\ (exists k, tool_calls s' = tool_calls s ++ k)
  /\ (exists k, conversation_history s' = conversation_history s ++ k).
Proof.
  intros Hstep. apply graph_step_agent in Hstep.
  destruct n; [| | | |done].
  - revert Hstep. unfold planner_execute.
    destruct (llm_invoke w _); [destruct (parse_plan w _)|];
      intros [= <- <-]; cbn; auto 10 with extends.
  - assert (H : s' = (executor_execute tools w s).1) by by rewrite Hstep.
    subst s'. clear Hstep.
    executor_cases tools w s; cbn; auto 10 with extends.
  - assert (H : s' = (validator_execute threshold w s).1) by by rewrite Hstep.
    subst s'. clear Hstep.
    destruct (validator_execute_outcome threshold w s)
      as [?|?|?|prompt response _ _]; cbn; auto 10 with extends.
    unfold decide_next_action.
    destruct (_ && _); [|destruct (decide _)]; cbn; auto 10 with extends.
  - revert Hstep. unfold memory_execute. intros [= <- <-].
    destruct (get_stats_raises w); destruct (nonempty (user_input s));
      cbn; destruct (final_output s) as [o|]; cbn;
      try destruct (nonempty o); cbn; auto 10 with extends.
Qed.

Lemma logs_are_append_only_witness :
  (exists k, errors DemoRun.s2 = errors DemoRun.s1 ++ k)
  /\ (exists k, warnings DemoRun.s2 = warnings DemoRun.s1 ++ k)
  /\ (exists k, tool_calls DemoRun.s2 = tool_calls DemoRun.s1 ++ k)
  /\ (exists k, conversation_history DemoRun.s2
                = conversation_history DemoRun.s1 ++ k).
Proof.
  apply (logs_are_append_only Demo.tools Demo.threshold DemoRun.w executor
           DemoRun.s1 validator DemoRun.s2
           (executor_execute Demo.tools DemoRun.w DemoRun.s1).2).
  vm_compute. reflexivity.
Defined.

(** ** The plan after planning *)

Lemma alter_task_spec (f : Task.t -> Task.t) i (plan : list Task.t) :
  (forall x, task_spec (f x) = task_spec x) ->
  map task_spec (alter f i plan) = map task_spec plan.
Proof.
  intros Hf. revert i. induction plan as [|x plan IH]; intros [|i]; cbn;
    [done|done| |]; f_equal; auto.
Qed.

Lemma reset_failed_tasks_spec plan :
  map task_spec (reset_failed_tasks plan) = map task_spec plan.
Proof.
  unfold reset_failed_tasks. rewrite map_map. apply map_ext.
  intros x. by destruct (decide (is_failed x)).
Qed.

(** X5: once the planner has run, the plan is fixed: no step of the
    executor, the validator or the memory stage adds, removes or reorders
    tasks, or changes the id, description, agent or dependencies of one. *)
Theorem plan_is_fixed_after_planning tools threshold w n s n' s' tr :
  graph_step tools threshold w n s = Some (n', s', tr) ->
  n <> planner ->
  map task_spec (task_plan s') = map task_spec (task_plan s).
Proof.
  intros Hstep Hn. apply graph_step_agent in Hstep.
  destruct n; [done| | | |done].
  - assert (H : s' = (executor_execute tools w s).1) by by rewrite Hstep.
    subst s'. clear Hstep.
    executor_cases tools w s; cbn; rewrite ?list_alter_alter_eq;
      try done; apply alter_task_spec; by intros [].
  - pose proof (validator_execute_plan threshold w s) as Hp.
    rewrite Hstep in Hp. cbn [fst] in Hp.
    destruct Hp as [[-> _]|[-> _]]; [done|apply reset_failed_tasks_spec].
  - pose proof (memory_execute_plan w s) as Hp. rewrite Hstep in Hp.
    cbn [fst] in Hp. by rewrite Hp.
Qed.

Lemma plan_is_fixed_after_planning_witness :
  map task_spec (task_plan DemoRetry.retry_state)
  = map task_spec (task_plan DemoRetry.first_pass).
Proof.
  apply (plan_is_fixed_after_planning Demo.tools Demo.threshold
           DemoRetry.w_validate validator DemoRetry.first_pass
           executor DemoRetry.retry_state
           (validator_execute Demo.threshold DemoRetry.w_validate
              DemoRetry.first_pass).2).
  - vm_compute. reflexivity.
  - discriminate.
Defined.

(** ** Invariants of a run *)

Lemma graph_step_not_planner tools threshold w n s n' s' tr :
  graph_step tools threshold w n s = Some (n', s', tr) -> n' <> planner.
Proof.
  destruct n; cbn [graph_step]; [| | | |done].
  - destruct (planner_execute w s) as [s1 tr1].
    unfold _route_from_planner. destruct (_ || _); cbn; by intros [= <- _ _].
  - destruct (executor_execute tools w s) as [s1 tr1].
    unfold _route_from_executor.
    destruct (String.eqb _ "executor"); [|destruct (String.eqb _ "validator")];
      cbn; by intros [= <- _ _].
  - destruct (validator_execute threshold w s) as [s1 tr1].
    unfold _route_from_validator.
    destruct (is_complete s1); [destruct (validation_passed s1)|]; cbn;
      by intros [= <- _ _].
  - destruct (memory_execute w s) as [s1 tr1]. by intros [= <- _ _].
Qed.

(** The only reachable state at the planner is the initial one. *)
Lemma reachable_planner tools threshold input s :
  reachable tools threshold input planner s -> s = create_initial_state input.
Proof.
  intros H. remember planner as n eqn:Hn. destruct H as [|n s w n' s' tr _ Hstep].
  - done.
  - by apply graph_step_not_planner in Hstep.
Qed.




Lemma executor_execute_is_complete tools w s :
  is_complete (executor_execute tools w s).1 = is_complete s.
Proof. executor_cases tools w s; done. Qed.

Lemma graph_step_executor_route tools threshold w s n' s' tr :
  graph_step tools threshold w executor s = Some (n', s', tr) ->
  (next_agent s' = "executor" /\ n' = executor)
  \/ (next_agent s' = "validator" /\ n' = validator).
Proof.
  intros Hstep. pose proof Hstep as Hagent. apply graph_step_agent in Hagent.
  pose proof (executor_execute_next_agent tools w s) as Hnext.
  rewrite Hagent in Hnext. cbn [fst] in Hnext.
  revert Hstep. cbn [graph_step]. rewrite Hagent.
  unfold _route_from_executor.
  destruct Hnext as [E|E]; rewrite E; cbn; intros [= <-]; auto.
Qed.

(** An execution step from a state whose cursor is on a task. *)
Lemma executor_step_on_task tools w s :
  cursor_on_task s ->
  let s' := (executor_execute tools w s).1 in
  (next_agent s' = "executor" /\ cursor_on_task s')
  \/ (next_agent s' = "validator" /\ something_to_validate s').
Proof.
  intros [Hlt Hbefore]. cbv zeta.
  destruct (lookup_lt_is_Some_2 _ _ Hlt) as [task Hl].
  pose proof (executor_execute_completed tools w s) as [Hlen _].
  cbv zeta in Hlen.
  destruct (_check_dependencies task s) eqn:Hd.
  - destruct (llm_invoke w (_build_execution_prompt tools task s))
      as [resp|e] eqn:Hllm.
    + destruct (executor_execute_answered tools w s task resp Hl Hd Hllm)
        as (_ & Htask & Hother & _ & _ & Hcur & _ & Hnext & _).
      destruct (decide (current_task_index s + 1 < length (task_plan s))).
      * left. split; [done|]. split; [rewrite Hcur, Hlen; lia|].
        intros i x Hi Hx. rewrite Hcur in Hi.
        destruct (decide (i = current_task_index s)) as [->|Hne].
        -- rewrite Htask in Hx. by simplify_eq.
        -- rewrite Hother in Hx by done. apply (Hbefore i); [lia|done].
      * right. split; [done|]. eexists. split.
        -- apply list_elem_of_lookup. eexists. apply Htask.
        -- by left.
    + destruct (executor_execute_raised tools w s task e Hl Hd Hllm)
        as (_ & Htask & _ & _ & _ & Hnext & _).
      right. split; [done|]. eexists. split.
      * apply list_elem_of_lookup. eexists. apply Htask.
      * by right.
  - rewrite (executor_execute_unmet tools w s task Hl Hd). cbn [fst].
    right. split; [done|]. eexists. split.
    + apply list_elem_of_lookup. exists (current_task_index s).
      cbn [task_plan set_next_agent set_errors].
      apply (lookup_update_task _ _ _ _ Hl).
    + by right.
Qed.

(** X7: in a run the executor is only ever entered with the cursor on a task
    of the plan, every task before the cursor being COMPLETED, and the
    validator is only ever entered with a plan in which some task is
    COMPLETED or FAILED; so the branches of the code for a cursor past the
    end of the plan and for a plan with nothing to validate are never taken
    in a run.  The state is not marked complete before the graph leaves
    the validator or the planner for the last time. *)
Theorem stages_entered_with_work_to_do tools threshold input n s :
  reachable tools threshold input n s ->
  (n = planner \/ n = executor \/ n = validator -> is_complete s = false)
  /\ (n = executor -> cursor_on_task s)
  /\ (n = validator -> something_to_validate s).
Proof.
  induction 1 as [|n s w n' s' tr Hreach (IHc & IHe & IHv) Hstep].
  { split; [done|]. split; intros [=]. }
  pose proof (graph_step_not_planner _ _ _ _ _ _ _ _ Hstep) as Hn'.
  pose proof Hstep as Hagent. apply graph_step_agent in Hagent.
  destruct n; [| | | |done].
  - (* planner *)
    assert (Hc : is_complete s = false) by auto.
    clear IHe IHv. revert Hstep. cbn [graph_step].
    unfold planner_execute, _route_from_planner.
    destruct (llm_invoke w _); [destruct (parse_plan w _) as [[|d ds]|]|];
      cbn; intros [= <- <- _]; (split; [by intros [?|[?|?]]|]);
      (split; [|done]); try done.
    intros _. split; [cbn; lia|]. intros i x Hi. cbn in Hi. lia.
  - (* executor *)
    specialize (IHe eq_refl).
    pose proof (executor_step_on_task tools w s IHe) as Hex.
    pose proof (executor_execute_is_complete tools w s) as Hc.
    rewrite Hagent in Hex, Hc. cbn [fst] in Hex, Hc.
    destruct (graph_step_executor_route _ _ _ _ _ _ _ Hstep)
      as [[Hnext ->]|[Hnext ->]].
    + split; [intros _; rewrite Hc; auto|]. split; [|done].
      intros _. destruct Hex as [[_ ?]|[Hv _]]; [done|].
      rewrite Hv in Hnext. discriminate.
    + split; [intros _; rewrite Hc; auto|]. split; [done|].
      intros _. destruct Hex as [[He _]|[_ ?]]; [|done].
      rewrite He in Hnext. discriminate.
  - (* validator *)
    specialize (IHv eq_refl). assert (Hc : is_complete s = false) by auto.
    assert (E : s' = (validator_execute threshold w s).1) by by rewrite Hagent.
    revert Hstep. cbn [graph_step]. rewrite Hagent.
    unfold _route_from_validator.
    destruct (is_complete s') eqn:Hc'.
    { destruct (validation_passed s'); cbn; intros [= <-];
        (split; [by intros [?|[?|?]]|]); by split. }
    cbn. intros [= <-]. split; [done|]. split; [|done]. intros _.
    subst s'.
    destruct (validator_execute_outcome threshold w s)
      as [?|?|?|prompt response _ _]; try done.
    destruct (decide_next_action_cases threshold (parse_validation w response) s)
      as [(_ & _ & Hx & _)
         |[(_ & _ & _ & _ & _ & _ & Hp & Hcur)
          |(_ & _ & _ & Hx & _)]];
      [rewrite Hx in Hc'; discriminate| |rewrite Hx in Hc'; discriminate].
    destruct IHv as (x & Hx & _). split.
    + rewrite Hcur, Hp. unfold reset_failed_tasks. rewrite length_map.
      destruct (task_plan s); [by apply elem_of_nil in Hx|cbn; lia].
    + intros i y Hi. rewrite Hcur in Hi. lia.
  - (* memory *)
    revert Hstep. cbn [graph_step]. rewrite Hagent. intros [= <-].
    split; [by intros [?|[?|?]]|]. by split.
Qed.

Lemma stages_entered_with_work_to_do_witness :
  something_to_validate DemoRun.s2.
Proof.
  apply (proj2 (proj2 (stages_entered_with_work_to_do Demo.tools
                         Demo.threshold "5 + 3" validator DemoRun.s2
                         reachable_s2))).
  reflexivity.
Defined.

Lemma elem_of_alter (f : Task.t -> Task.t) i (plan : list Task.t) y :
  y ∈ alter f i plan -> y ∈ plan \/ exists x, x ∈ plan /\ y = f x.
Proof.
  intros Hin. apply list_elem_of_lookup in Hin as [j Hj].
  rewrite list_lookup_alter in Hj. destruct (decide (i = j)) as [->|Hne].
  - destruct (plan !! j) as [x|] eqn:E; [|done]. cbn in Hj. simplify_eq.
    right. exists x. split; [|done]. apply list_elem_of_lookup. by exists j.
  - left. apply list_elem_of_lookup. by exists j.
Qed.

Lemma outcomes_recorded_alter (f : Task.t -> Task.t) i s s' :
  task_plan s' = alter f i (task_plan s) ->
  (forall x, (Task.status (f x) = COMPLETED -> is_Some (Task.result (f x)))
             /\ (Task.status (f x) = FAILED -> is_Some (Task.error (f x)))) ->
  outcomes_recorded s -> outcomes_recorded s'.
Proof.
  intros Hp Hf Hs y Hy. rewrite Hp in Hy.
  apply elem_of_alter in Hy as [Hy|(x & _ & ->)]; [by apply Hs|apply Hf].
Qed.

Lemma executor_execute_outcomes tools w s :
  outcomes_recorded s -> outcomes_recorded (executor_execute tools w s).1.
Proof.
  intros Hs.
  executor_cases tools w s; cbn [fst]; try done;
    (eapply outcomes_recorded_alter;
     [cbn; rewrite ?list_alter_alter_eq; reflexivity| |done]);
    intros x; cbn; split; intros; by eauto.
Qed.

Lemma validator_execute_outcomes threshold w s :
  outcomes_recorded s -> outcomes_recorded (validator_execute threshold w s).1.
Proof.
  intros Hs y Hy.
  pose proof (validator_execute_plan threshold w s) as Hp. cbv zeta in Hp.
  destruct Hp as [[Hp _]|[Hp _]]; rewrite Hp in Hy; [by apply Hs|].
  unfold reset_failed_tasks in Hy.
  apply list_elem_of_In, in_map_iff in Hy as (x & <- & Hx).
  apply list_elem_of_In in Hx. destruct (decide (is_failed x)).
  - by split.
  - by apply Hs.
Qed.

Lemma completed_lines_total (l : list Task.t) :
  (forall x, x ∈ l -> is_Some (Task.result x)) ->
  exists lns, completed_lines l = Ret lns.
Proof.
  induction l as [|x l IH]; intros Hl; [by eexists|].
  cbn. unfold completed_line.
  destruct (Hl x) as [r ->]; [by left|].
  destruct IH as [lns ->]; [|by eexists].
  intros y Hy. apply Hl. by right.
Qed.

(** X8: in every reachable state each COMPLETED task has a result and each
    FAILED task has an error text; consequently the building of the
    validation prompt, which slices the result of every COMPLETED task,
    never raises in a run. *)
Theorem outcomes_are_recorded tools threshold input n s :
  reachable tools threshold input n s ->
  outcomes_recorded s
  /\ exists prompt,
       _build_validation_prompt s (filter is_completed (task_plan s))
         (filter is_failed (task_plan s)) = Ret prompt.
Proof.
  intros Hreach.
  assert (Hrec : outcomes_recorded s).
  { induction Hreach as [|n s w n' s' tr Hreach IH Hstep].
    - intros x Hx. by apply elem_of_nil in Hx.
    - apply graph_step_agent in Hstep. destruct n; [| | | |done].
      + revert Hstep. unfold planner_execute.
        destruct (llm_invoke w _); [destruct (parse_plan w _) as [ds|]|];
          intros [= <- _]; try done.
        intros x Hx. cbn in Hx.
        apply list_elem_of_In, in_map_iff in Hx as (d & <- & _). by split.
      + pose proof (executor_execute_outcomes tools w s IH) as H.
        by rewrite Hstep in H.
      + pose proof (validator_execute_outcomes threshold w s IH) as H.
        by rewrite Hstep in H.
      + pose proof (memory_execute_plan w s) as Hp. rewrite Hstep in Hp.
        cbn [fst] in Hp. intros x Hx. rewrite Hp in Hx. by apply IH. }
  split; [done|]. unfold _build_validation_prompt.
  destruct (completed_lines_total (filter is_completed (task_plan s)))
    as [lns ->]; [|by eexists].
  intros x Hx. apply list_elem_of_filter in Hx as [Hc Hx].
  by apply Hrec.
Qed.

Lemma outcomes_are_recorded_witness :
  outcomes_recorded DemoRun.s2
  /\ exists prompt,
       _build_validation_prompt DemoRun.s2
         (filter is_completed (task_plan DemoRun.s2))
         (filter is_failed (task_plan DemoRun.s2)) = Ret prompt.
Proof.
  apply (outcomes_are_recorded Demo.tools Demo.threshold "5 + 3" validator
           DemoRun.s2).
  apply reachable_s2.
Defined.

(** ** Termination *)

Lemma graph_step_defined tools threshold w n s :
  n <> END -> exists n' s' tr, graph_step tools threshold w n s = Some (n', s', tr).
Proof.
  intros Hn. destruct n; [| | | |done]; cbn [graph_step].
  - destruct (planner_execute w s) as [s' tr].
    unfold _route_from_planner. destruct (_ || _); cbn; eauto.
  - pose proof (executor_execute_next_agent tools w s) as Hnext.
    destruct (executor_execute tools w s) as [s' tr]. cbn [fst] in Hnext.
    unfold _route_from_executor. destruct Hnext as [->| ->]; cbn; eauto.
  - destruct (validator_execute threshold w s) as [s' tr].
    unfold _route_from_validator.
    destruct (is_complete s'); [destruct (validation_passed s')|]; cbn; eauto.
  - destruct (memory_execute w s) as [s' tr]. eauto.
Qed.

Lemma graph_step_validator_route tools threshold w s n' s' tr :
  graph_step tools threshold w validator s = Some (n', s', tr) ->
  s' = (validator_execute threshold w s).1
  /\ ((is_complete s' = true /\ validation_passed s' = true /\ n' = memory)
      \/ (is_complete s' = true /\ validation_passed s' = false /\ n' = END)
      \/ (is_complete s' = false /\ n' = executor)).
Proof.
  cbn [graph_step]. destruct (validator_execute threshold w s) as [s1 tr1].
  unfold _route_from_validator.
  destruct (is_complete s1) eqn:Hc; [destruct (validation_passed s1) eqn:Hp|];
    cbn; intros [= <- <- _]; split; auto.
Qed.

(** Every graph step past the planner uses up some of the bound. *)
Lemma graph_step_decreases tools threshold w n s n' s' tr :
  graph_step tools threshold w n s = Some (n', s', tr) ->
  n <> planner ->
  steps_left n' s' < steps_left n s.
Proof.
  intros Hstep Hn. destruct n; [done| | | |done].
  - (* executor *)
    pose proof (graph_step_executor_route _ _ _ _ _ _ _ Hstep) as Hroute.
    apply graph_step_agent in Hstep.
    assert (E : s' = (executor_execute tools w s).1) by by rewrite Hstep.
    pose proof (executor_execute_completed tools w s) as [Hlen _].
    pose proof (executor_execute_retry_count tools w s) as Hr.
    cbv zeta in Hlen. rewrite <- E in Hlen, Hr.
    destruct Hroute as [[Hnext ->]|[_ ->]]; unfold steps_left;
      rewrite Hlen, Hr;
      generalize ((2 - retry_count s) * (length (task_plan s) + 2));
      intros m; [|lia].
    assert (Hcur : current_task_index s' = current_task_index s + 1
                   /\ current_task_index s + 1 < length (task_plan s)).
    { subst s'. revert Hnext. clear.
      executor_cases tools w s; cbn; try discriminate.
      intros _. split; [done|].
      match goal with
      | H : _ < _ |- _ => cbn in H; rewrite !length_alter in H; exact H
      end. }
    destruct Hcur as [-> Hlt]. clear -Hlt. lia.
  - (* validator *)
    apply graph_step_validator_route in Hstep as [E Hroute].
    destruct Hroute as [(_ & _ & ->)|[(_ & _ & ->)|(Hc & ->)]];
      unfold steps_left;
      [generalize ((2 - retry_count s) * (length (task_plan s) + 2));
       intros; lia..|].
    pose proof (validator_execute_plan threshold w s) as Hp.
    pose proof (validator_execute_retry_count threshold w s) as Hr.
    cbv zeta in Hp, Hr. rewrite <- E in Hp, Hr.
    assert (Hretry : task_plan s' = reset_failed_tasks (task_plan s)
                     /\ retry_count s < 2
                     /\ retry_count s' = retry_count s + 1
                     /\ current_task_index s' = 0).
    { subst s'.
      destruct (validator_execute_outcome threshold w s)
        as [?|?|?|prompt response _ _]; try discriminate.
      destruct (decide_next_action_cases threshold
                  (parse_validation w response) s)
        as [(_ & _ & Hx & _)
           |[(_ & Hlt & _ & _ & _ & Hrc & Hplan & Hcur)
            |(_ & _ & _ & Hx & _)]];
        [rewrite Hx in Hc; discriminate|done|rewrite Hx in Hc; discriminate]. }
    destruct Hretry as (-> & Hlt & -> & ->).
    unfold reset_failed_tasks. rewrite length_map.
    destruct (retry_count s) as [|[|r]]; cbn; lia.
  - (* memory *)
    cbn [graph_step] in Hstep. destruct (memory_execute w s).
    simplify_eq. cbn. lia.
Qed.

Lemma graph_loop_terminates tools threshold worlds fuel :
  forall k n s tr,
    n <> planner -> steps_left n s <= fuel ->
    exists final, graph_loop tools threshold fuel worlds k n s tr = Ret final.
Proof.
  induction fuel as [|fuel IH]; intros k n s tr Hn Hfuel.
  - destruct n; [done| | | |by eexists]; exfalso; unfold steps_left in Hfuel;
      revert Hfuel;
      generalize ((2 - retry_count s) * (length (task_plan s) + 2));
      intros; lia.
  - destruct (decide (n = END)) as [->|Hend]; [by eexists|].
    destruct (graph_step_defined tools threshold (worlds k) n s Hend)
      as (n' & s' & tr' & Hstep).
    pose proof (graph_step_decreases _ _ _ _ _ _ _ _ Hstep Hn) as Hlt.
    pose proof (graph_step_not_planner _ _ _ _ _ _ _ _ Hstep) as Hn'.
    destruct n; [done| | | |done]; cbn [graph_loop]; rewrite Hstep;
      apply IH; try done; lia.
Qed.

(** X9: a run always comes to its end, whatever the model, the tools and the
    scorer answer: with a plan of [t] tasks the graph takes at most
    [3 * t + 8] steps, so [run] reports [success = True] whenever the
    recursion limit of the graph is at least that. *)
Theorem run_terminates tools threshold recursion_limit worlds input :
  let planned := (planner_execute (worlds 0) (create_initial_state input)).1 in
  3 * length (task_plan planned) + 8 <= recursion_limit ->
  (exists final,
     workflow_invoke tools threshold recursion_limit worlds
       (create_initial_state input) = Ret final)
  /\ r_success (run tools threshold recursion_limit worlds input).1 = true.
Proof.
  cbv zeta. intros Hfuel.
  assert (Hinv : exists final,
            workflow_invoke tools threshold recursion_limit worlds
              (create_initial_state input) = Ret final).
  { unfold workflow_invoke. destruct recursion_limit as [|fuel]; [lia|].
    cbn [graph_loop].
    destruct (graph_step_defined tools threshold (worlds 0) planner
                (create_initial_state input)) as (n' & s' & tr' & Hstep);
      [done|].
    rewrite Hstep.
    pose proof (graph_step_not_planner _ _ _ _ _ _ _ _ Hstep) as Hn'.
    apply graph_step_agent in Hstep.
    rewrite Hstep in Hfuel. cbn [fst] in Hfuel.
    apply graph_loop_terminates; [done|].
    destruct n'; unfold steps_left; [done|lia..]. }
  split; [done|]. destruct Hinv as [[final tr] Hinv].
  unfold run. by rewrite Hinv.
Qed.

(** The run of [DemoRun] (one task, two retries) under the default limit
    of 25 steps. *)
Lemma run_terminates_witness :
  (exists final,
     workflow_invoke Demo.tools Demo.threshold 25 (fun _ => DemoRun.w)
       (create_initial_state "5 + 3") = Ret final)
  /\ r_success (run Demo.tools Demo.threshold 25 (fun _ => DemoRun.w)
                  "5 + 3").1 = true.
Proof.
  apply (run_terminates Demo.tools Demo.threshold 25 (fun _ => DemoRun.w)
           "5 + 3").
  vm_compute. lia.
Defined.

(** ** What is stored in memory *)










(** ** Failures of the scorer and of the planner *)

(** X11: when the scorer call raises, the validator ends the run at once:
    "Validation error: ..." is appended to [errors], the verdict is not
    passed, no retry is used, the plan and the cursor are left alone, no
    final output is compiled, and the graph goes from the validator to its
    end without the memory stage. *)
Theorem scorer_exception_ends_run tools threshold w s prompt e :
  _is_simple_calculator_task s = false ->
  something_to_validate s ->
  _build_validation_prompt s (filter is_completed (task_plan s))
    (filter is_failed (task_plan s)) = Ret prompt ->
  llm_invoke w prompt = Raise e ->
  let s' := (validator_execute threshold w s).1 in
  errors s' = errors s ++ ["Validation error: " +:+ e]
  /\ validation_passed s' = false
  /\ is_complete s' = true
  /\ retry_count s' = retry_count s
  /\ task_plan s' = task_plan s
  /\ current_task_index s' = current_task_index s
  /\ final_output s' = final_output s
  /\ graph_step tools threshold w validator s
     = Some (END, s', [LLMCall "validator" prompt]).
Proof.
  intros Hfast (x & Hx & Hst) Hprompt Hllm. cbv zeta. cbn [graph_step].
  unfold validator_execute, full_validation. rewrite Hfast, Hprompt, Hllm.
  assert (Hne : filter is_completed (task_plan s) <> []
                \/ filter is_failed (task_plan s) <> []).
  { destruct Hst as [Hst|Hst]; [left|right]; intros Hnil.
    - assert (Hin : x ∈ filter is_completed (task_plan s))
        by (apply list_elem_of_filter; by split).
      rewrite Hnil in Hin. by apply elem_of_nil in Hin.
    - assert (Hin : x ∈ filter is_failed (task_plan s))
        by (apply list_elem_of_filter; by split).
      rewrite Hnil in Hin. by apply elem_of_nil in Hin. }
  destruct (filter is_completed (task_plan s)) as [|c cs],
           (filter is_failed (task_plan s)) as [|f fs];
    [by destruct Hne| | |]; by repeat split.
Qed.

Lemma scorer_exception_ends_run_witness :
  let s := DemoRun.s2 in
  let w := {| llm_invoke := fun _ => Raise "timeout";
              tool_execute := fun _ _ => Demo.tool_ok "8";
              parse_plan := fun _ => Raise "unused";
              parse_validation := fun _ => Demo.accepted;
              retrieve_relevant_context := fun _ => "";
              get_stats_raises := None |} in
  let prompt :=
    match _build_validation_prompt s (filter is_completed (task_plan s))
            (filter is_failed (task_plan s)) with
    | Ret p => p
    | Raise _ => ""
    end in
  let s' := (validator_execute Demo.threshold w s).1 in
  errors s' = errors s ++ ["Validation error: timeout"]
  /\ validation_passed s' = false
  /\ is_complete s' = true
  /\ retry_count s' = retry_count s
  /\ task_plan s' = task_plan s
  /\ current_task_index s' = current_task_index s
  /\ final_output s' = final_output s
  /\ graph_step Demo.tools Demo.threshold w validator s
     = Some (END, s', [LLMCall "validator" prompt]).
Proof.
  intros s w prompt.
  apply (scorer_exception_ends_run Demo.tools Demo.threshold w s prompt
           "timeout").
  - reflexivity.
  - eexists. split; [apply list_elem_of_In; vm_compute; left; reflexivity|].
    by left.
  - reflexivity.
  - reflexivity.
Defined.

(** X12: when the plan producer's answer has [t] tasks, the plan has [t]
    tasks with the same ids, descriptions and order, every one PENDING with
    no result and no error, a missing agent read as executor and missing
    dependencies as none; the cursor is at 0, and the graph goes on to the
    executor exactly when [t] is not zero. *)
Theorem planning_builds_the_plan tools threshold w s response task_dicts :
  llm_invoke w (planning_prompt (user_goal s)) = Ret response ->
  parse_plan w response = Ret task_dicts ->
  let s' := (planner_execute w s).1 in
  map Task.id (task_plan s') = map td_id task_dicts
  /\ map Task.description (task_plan s') = map td_description task_dicts
  /\ map Task.agent (task_plan s')
     = map (fun d => default "executor" (td_agent d)) task_dicts
  /\ map Task.dependencies (task_plan s')
     = map (fun d => default [] (td_dependencies d)) task_dicts
  /\ (forall x, x ∈ task_plan s' ->
        Task.status x = PENDING /\ Task.result x = None /\ Task.error x = None)
  /\ current_task_index s' = 0
  /\ iteration_count s' = iteration_count s + 1
  /\ errors s' = errors s
  /\ graph_step tools threshold w planner s
     = Some (match task_dicts with [] => END | _ => executor end, s',
             [LLMCall "planner" (planning_prompt (user_goal s))]).
Proof.
  intros Hllm Hparse. cbv zeta. cbn [graph_step].
  unfold planner_execute. rewrite Hllm, Hparse. cbn [fst snd].
  cbn [task_plan set_iteration_count set_next_agent set_current_task_index
       set_task_plan current_task_index iteration_count errors].
  rewrite !map_map. cbn [task_of_dict Task.id Task.description Task.agent
                         Task.dependencies].
  repeat split; try done.
  - apply list_elem_of_In, in_map_iff in H as (d & <- & _). done.
  - apply list_elem_of_In, in_map_iff in H as (d & <- & _). done.
  - apply list_elem_of_In, in_map_iff in H as (d & <- & _). done.
  - unfold _route_from_planner. cbn. by destruct task_dicts.
Qed.

Lemma planning_builds_the_plan_witness :
  let s' := (planner_execute DemoRun.w DemoRun.s0).1 in
  map Task.id (task_plan s') = ["task_1"]
  /\ map Task.description (task_plan s') = ["add 5 and 3"]
  /\ map Task.agent (task_plan s') = ["executor"]
  /\ map Task.dependencies (task_plan s') = [[]]
  /\ (forall x, x ∈ task_plan s' ->
        Task.status x = PENDING /\ Task.result x = None /\ Task.error x = None)
  /\ current_task_index s' = 0
  /\ iteration_count s' = 1
  /\ errors s' = []
  /\ graph_step Demo.tools Demo.threshold DemoRun.w planner DemoRun.s0
     = Some (executor, s', [LLMCall "planner" (planning_prompt "5 + 3")]).
Proof.
  apply (planning_builds_the_plan Demo.tools Demo.threshold DemoRun.w
           DemoRun.s0 "The sum is eight."
           [ {| td_id := "task_1"; td_description := "add 5 and 3";
                td_agent := None; td_dependencies := None |} ]);
    reflexivity.
Defined.



(** ** Texts that contain other texts *)

Lemma append_cons c (a b : string) : String c a +:+ b = String c (a +:+ b).
Proof. reflexivity. Qed.


Lemma prefix_cons c (a b : string) :
  String.prefix (String c a) (String c b) = String.prefix a b.
Proof. cbn. by destruct (ascii_dec c c). Qed.

Lemma prefix_append_l (sub a b : string) :
  String.prefix sub a = true -> String.prefix sub (a +:+ b) = true.
Proof.
  revert a. induction sub as [|c sub IH]; intros a H.
  - by destruct (a +:+ b).
  - destruct a as [|d a]; [done|]. rewrite append_cons. cbn in *.
    destruct (ascii_dec c d); [by apply IH|done].
Qed.

Lemma prefix_refl (s : string) : String.prefix s s = true.
Proof. induction s as [|c s IH]; [done|]. by rewrite prefix_cons. Qed.

Lemma contains_unfold (sub s : string) :
  PyStr.contains sub s
  = String.prefix sub s
    || match s with
       | EmptyString => false
       | String _ s' => PyStr.contains sub s'
       end.
Proof. by destruct s. Qed.

Lemma contains_append_l (sub a b : string) :
  PyStr.contains sub a = true -> PyStr.contains sub (a +:+ b) = true.
Proof.
  induction a as [|c a IH]; intros H.
  - rewrite contains_unfold in H. cbn in H. rewrite orb_false_r in H.
    rewrite contains_unfold. by rewrite (prefix_append_l sub "" b H).
  - rewrite contains_unfold in H. apply orb_true_iff in H as [H|H].
    + rewrite contains_unfold. by rewrite (prefix_append_l _ _ b H).
    + rewrite append_cons, contains_unfold. rewrite (IH H).
      apply orb_true_r.
Qed.

Lemma contains_append_r (sub a b : string) :
  PyStr.contains sub b = true -> PyStr.contains sub (a +:+ b) = true.
Proof.
  intros H. induction a as [|c a IH]; [done|].
  rewrite append_cons, contains_unfold, IH. apply orb_true_r.
Qed.

Lemma contains_refl (s : string) : PyStr.contains s s = true.
Proof. rewrite contains_unfold. by rewrite prefix_refl. Qed.

Lemma contains_join (sub sep : string) (parts : list string) p :
  p ∈ parts -> PyStr.contains sub p = true ->
  PyStr.contains sub (PyStr.join sep parts) = true.
Proof.
  intros Hin Hp. induction parts as [|q parts IH];
    [by apply elem_of_nil in Hin|].
  apply elem_of_cons in Hin as [->|Hin].
  - destruct parts as [|q' parts]; [done|].
    cbn [PyStr.join]. by apply contains_append_l.
  - destruct parts as [|q' parts]; [by apply elem_of_nil in Hin|].
    cbn [PyStr.join]. do 2 apply contains_append_r. by apply IH.
Qed.

Lemma lower_append (a b : string) :
  PyStr.lower (a +:+ b) = PyStr.lower a +:+ PyStr.lower b.
Proof.
  induction a as [|c a IH]; [done|].
  rewrite append_cons. cbn [PyStr.lower]. by rewrite IH.
Qed.

(** ** The final output *)

Lemma compile_final_output_contains s x :
  x ∈ task_plan s ->
  PyStr.contains (user_goal s) (_compile_final_output s) = true
  /\ (Task.status x = COMPLETED ->
      PyStr.contains (Task.description x) (_compile_final_output s) = true
      /\ forall r, Task.result x = Some r ->
                   PyStr.contains r (_compile_final_output s) = true)
  /\ (Task.status x = FAILED ->
      PyStr.contains (Task.description x) (_compile_final_output s) = true
      /\ forall e, Task.error x = Some e ->
                   PyStr.contains e (_compile_final_output s) = true).
Proof.
  intros Hx. unfold _compile_final_output.
  set (task_parts := fun x : Task.t => match Task.status x with
                                       | COMPLETED => _
                                       | FAILED => _
                                       | _ => _
                                       end).
  set (tail := match validation_result s with Some _ => _ | None => _ end).
  assert (Hpart : forall p, p ∈ task_parts x ->
            p ∈ ["Goal: " +:+ user_goal s +:+ PyStr.nl]
                ++ concat (map task_parts (task_plan s)) ++ tail).
  { intros p Hp. apply elem_of_app. right. apply elem_of_app. left.
    apply list_elem_of_In, in_concat. exists (task_parts x).
    split; [|by apply list_elem_of_In].
    apply in_map. by apply list_elem_of_In. }
  split; [|split].
  - eapply contains_join; [by left|].
    apply contains_append_r, contains_append_l, contains_refl.
  - intros Hst. split.
    + eapply contains_join.
      * apply Hpart. unfold task_parts. rewrite Hst. by left.
      * apply contains_append_r, contains_refl.
    + intros r Hr. eapply contains_join.
      * apply Hpart. unfold task_parts. rewrite Hst. right. by left.
      * rewrite Hr. cbn [PyStr.str_opt].
        apply contains_append_r, contains_append_l, contains_refl.
  - intros Hst. split.
    + eapply contains_join.
      * apply Hpart. unfold task_parts. rewrite Hst. by left.
      * apply contains_append_r, contains_refl.
    + intros e He. eapply contains_join.
      * apply Hpart. unfold task_parts. rewrite Hst. right. by left.
      * rewrite He. cbn [PyStr.str_opt].
        apply contains_append_r, contains_append_l, contains_refl.
Qed.

#[local] Opaque _compile_final_output.

Lemma validator_compiles_output threshold w s out :
  final_output s = None ->
  final_output (validator_execute threshold w s).1 = Some out ->
  exists sx, out = _compile_final_output sx
             /\ task_plan sx = task_plan s /\ user_goal sx = user_goal s.
Proof.
  intros Hnone.
  destruct (validator_execute_outcome threshold w s)
    as [?|?|?|prompt response _ _]; cbn; rewrite ?Hnone; try done.
  - intros [= <-]. eexists. split; [reflexivity|done].
  - unfold decide_next_action.
    destruct (_ && _); [|destruct (decide _)]; cbn; rewrite ?Hnone;
      try done; intros [= <-]; (eexists; split; [reflexivity|done]).
Qed.

#[local] Transparent _compile_final_output.

(** X14: whenever the validator compiles the final output (the verdict is
    passed, or the retries are used up), the output contains the goal, the
    description and the result of every COMPLETED task, and the description
    and the error of every FAILED task. *)
Theorem final_output_reports_every_task threshold w s out x :
  final_output s = None ->
  final_output (validator_execute threshold w s).1 = Some out ->
  x ∈ task_plan s ->
  PyStr.contains (user_goal s) out = true
  /\ (Task.status x = COMPLETED ->
      PyStr.contains (Task.description x) out = true
      /\ forall r, Task.result x = Some r -> PyStr.contains r out = true)
  /\ (Task.status x = FAILED ->
      PyStr.contains (Task.description x) out = true
      /\ forall e, Task.error x = Some e -> PyStr.contains e out = true).
Proof.
  intros Hnone Hout Hx.
  destruct (validator_compiles_output threshold w s out Hnone Hout)
    as (sx & -> & Hplan & Hgoal).
  rewrite <- Hgoal. apply compile_final_output_contains. by rewrite Hplan.
Qed.

(** The report of the run of [DemoRetry] whose retries are used up. *)
Lemma final_output_reports_every_task_witness :
  let s := set_retry_count 2 DemoRetry.first_pass in
  let out :=
    default "" (final_output
                  (validator_execute Demo.threshold DemoRetry.w_validate s).1) in
  PyStr.contains (user_goal s) out = true
  /\ (Task.status DemoRetry.failed_task = COMPLETED ->
      PyStr.contains (Task.description DemoRetry.failed_task) out = true
      /\ forall r, Task.result DemoRetry.failed_task = Some r ->
                   PyStr.contains r out = true)
  /\ (Task.status DemoRetry.failed_task = FAILED ->
      PyStr.contains (Task.description DemoRetry.failed_task) out = true
      /\ forall e, Task.error DemoRetry.failed_task = Some e ->
                   PyStr.contains e out = true).
Proof.
  intros s out.
  apply (final_output_reports_every_task Demo.threshold DemoRetry.w_validate
           s out DemoRetry.failed_task).
  - reflexivity.
  - reflexivity.
  - apply list_elem_of_In. cbn. auto.
Defined.

(** ** The calculator and the fast path *)

Lemma calculator_result_mentions_calculator tools w llm_response tool_result :
  has_tool_call llm_response = true ->
  parse_tool_name llm_response = "calculator" ->
  tool_registered tools "calculator" = true ->
  tool_execute w "calculator" (parse_tool_input llm_response) = Ret tool_result ->
  PyStr.contains "calculator"
    (PyStr.lower (_execute_with_tools tools w llm_response).1) = true.
Proof.
  intros Hcall Hname Hreg Htool. unfold _execute_with_tools.
  rewrite Hcall, Hname, Hreg, Htool.
  destruct (success tool_result); cbn [fst];
    rewrite lower_append; apply contains_append_r;
    rewrite lower_append; by apply contains_append_l.
Qed.

(** X15: when the tool invoked is the calculator and it returns a response,
    be it a success or a failure such as a division by zero, the task is
    COMPLETED and its tool log entry mentions the calculator; if the rest of
    the tool log does too, [errors] is empty and the other tasks are
    COMPLETED, the validator then auto-validates the run without calling
    the scorer.  A failed calculation is validated as passed. *)
Theorem calculator_response_is_auto_validated
    tools threshold w w' s task llm_response tool_result :
  task_plan s !! current_task_index s = Some task ->
  _check_dependencies task s = true ->
  llm_invoke w (_build_execution_prompt tools task s) = Ret llm_response ->
  has_tool_call llm_response = true ->
  parse_tool_name llm_response = "calculator" ->
  tool_registered tools "calculator" = true ->
  tool_execute w "calculator" (parse_tool_input llm_response) = Ret tool_result ->
  Forall mentions_calculator (tool_calls s) ->
  errors s = [] ->
  (forall j x, j <> current_task_index s -> task_plan s !! j = Some x ->
               Task.status x = COMPLETED) ->
  let s' := (executor_execute tools w s).1 in
  (Task.status <$> task_plan s' !! current_task_index s) = Some COMPLETED
  /\ _is_simple_calculator_task s' = true
  /\ validator_execute threshold w' s' = (auto_validate s', [])
  /\ validation_passed (auto_validate s') = true.
Proof.
  intros Hl Hd Hllm Hcall Hname Hreg Htool Hlog Herr Hothers. cbv zeta.
  destruct (executor_execute_answered tools w s task llm_response Hl Hd Hllm)
    as (_ & Htask & Hother & _ & Hcalls & _ & _ & _ & Herr' & _).
  assert (Hfast : _is_simple_calculator_task (executor_execute tools w s).1
                  = true).
  { apply is_simple_calculator_task_spec. split; [|split].
    - rewrite Hcalls. apply Forall_app. split; [done|].
      apply Forall_singleton. unfold mentions_calculator. cbn [tc_result].
      by apply calculator_result_mentions_calculator with tool_result.
    - by rewrite Herr'.
    - apply Forall_lookup. intros j x Hx.
      destruct (decide (j = current_task_index s)) as [->|Hne].
      + rewrite Htask in Hx. by simplify_eq.
      + rewrite Hother in Hx by done. by apply (Hothers j). }
  split; [by rewrite Htask|]. split; [done|].
  unfold validator_execute. by rewrite Hfast.
Qed.

(** The calculator is asked to divide by zero and reports the failure. *)
Lemma calculator_response_is_auto_validated_witness :
  let s := Demo.state_with
             [Demo.task "task_1" "divide" PENDING [] None None] 0 in
  let w := Demo.world "TOOL: calculator | INPUT: 1 / 0"
             (Demo.tool_failed "Division by zero") (Raise "unused")
             Demo.rejected in
  let s' := (executor_execute Demo.tools w s).1 in
  (Task.status <$> task_plan s' !! 0) = Some COMPLETED
  /\ _is_simple_calculator_task s' = true
  /\ validator_execute Demo.threshold w s' = (auto_validate s', [])
  /\ validation_passed (auto_validate s') = true.
Proof.
  intros s w.
  apply (calculator_response_is_auto_validated Demo.tools Demo.threshold w w s
           (Demo.task "task_1" "divide" PENDING [] None None)
           "TOOL: calculator | INPUT: 1 / 0"
           {| success := false; tr_result := None;
              tr_error := Some "Division by zero" |});
    try reflexivity.
  - constructor.
  - intros [|j] x Hj Hx; [done|]. discriminate.
Defined.

(** ** The prompt of an execution step *)

(** X16: the model is consulted with a prompt that contains the task's
    description and, for every dependency of the task with a stored result,
    the line "Result from <id>: <result>"; when every dependency has a
    stored result the lines come in the order of the dependency list, and
    when none has, the prompt says "No previous results" instead. *)
Theorem prompt_shows_dependency_results tools w s task :
  task_plan s !! current_task_index s = Some task ->
  _check_dependencies task s = true ->
  let prompt := _build_execution_prompt tools task s in
  (exists rest, (executor_execute tools w s).2
                = LLMCall "executor" prompt :: rest)
  /\ PyStr.contains (Task.description task) prompt = true
  /\ (forall dep r,
        dep ∈ Task.dependencies task ->
        execution_results s !! dep = Some r ->
        PyStr.contains ("Result from " +:+ dep +:+ ": " +:+ r) prompt = true)
  /\ ((forall dep, dep ∈ Task.dependencies task ->
                   is_Some (execution_results s !! dep)) ->
      dependency_context task s
      = map (fun dep => "Result from " +:+ dep +:+ ": "
                        +:+ default "" (execution_results s !! dep))
            (Task.dependencies task))
  /\ ((forall dep, dep ∈ Task.dependencies task ->
                   execution_results s !! dep = None) ->
      PyStr.contains "No previous results" prompt = true).
Proof.
  intros Hl Hd. cbv zeta. split; [|split; [|split; [|split]]].
  - destruct (llm_invoke w (_build_execution_prompt tools task s))
      as [resp|e] eqn:Hllm.
    + destruct (executor_execute_answered tools w s task resp Hl Hd Hllm)
        as (-> & _). by eexists.
    + destruct (executor_execute_raised tools w s task e Hl Hd Hllm)
        as (-> & _). by eexists.
  - unfold _build_execution_prompt.
    do 2 apply contains_append_r. apply contains_append_l, contains_refl.
  - intros dep r Hdep Hr. unfold _build_execution_prompt.
    assert (Hin : ("Result from " +:+ dep +:+ ": " +:+ r)
                  ∈ dependency_context task s).
    { unfold dependency_context. apply list_elem_of_omap.
      exists dep. split; [done|]. by rewrite Hr. }
    do 7 apply contains_append_r. apply contains_append_l.
    destruct (dependency_context task s) as [|c cs] eqn:E;
      [by apply elem_of_nil in Hin|].
    eapply contains_join; [exact Hin|apply contains_refl].
  - intros Hall. unfold dependency_context.
    induction (Task.dependencies task) as [|dep deps IH]; [done|].
    cbn [omap list_omap map].
    destruct (Hall dep) as [r Hr]; [by left|]. rewrite Hr. cbn.
    f_equal. apply IH. intros d Hdin. apply Hall. by right.
  - intros Hnone. unfold _build_execution_prompt.
    assert (E : dependency_context task s = []).
    { unfold dependency_context.
      induction (Task.dependencies task) as [|dep deps IH]; [done|].
      cbn [omap list_omap]. rewrite (Hnone dep) by by left.
      apply IH. intros d Hdin. apply Hnone. by right. }
    rewrite E. do 7 apply contains_append_r.
    apply contains_append_l, contains_refl.
Qed.

Lemma prompt_shows_dependency_results_witness :
  let task := Demo.task "task_2" "double it" PENDING ["task_1"] None None in
  let s := set_execution_results {[ "task_1" := "8" ]}
             (Demo.state_with
                [Demo.task "task_1" "add" COMPLETED [] (Some "8") None; task]
                1) in
  PyStr.contains "Result from task_1: 8"
    (_build_execution_prompt Demo.tools task s) = true.
Proof.
  intros task s.
  refine (proj1 (proj2 (proj2 (prompt_shows_dependency_results
                                 Demo.tools DemoRun.w s task _ _)))
            "task_1" "8" _ _).
  - reflexivity.
  - reflexivity.
  - apply list_elem_of_In. cbn. auto.
  - reflexivity.
Defined.

(** ** core/state.py: updating a task by its id *)

Lemma find_task_update_first task_id (f : Task.t -> Task.t) plan :
  (forall x, Task.id (f x) = Task.id x) ->
  find_task (update_first task_id f plan) task_id
  = f <$> find_task plan task_id.
Proof.
  intros Hf. unfold find_task.
  induction plan as [|x plan IH]; [done|]. cbn.
  destruct (String.eqb (Task.id x) task_id) eqn:E; cbn.
  - by rewrite Hf, E.
  - by rewrite E.
Qed.

Lemma find_task_update_first_ne task_id other (f : Task.t -> Task.t) plan :
  (forall x, Task.id (f x) = Task.id x) ->
  other <> task_id ->
  find_task (update_first task_id f plan) other = find_task plan other.
Proof.
  intros Hf Hne. unfold find_task.
  induction plan as [|x plan IH]; [done|]. cbn.
  destruct (String.eqb (Task.id x) task_id) eqn:E; cbn.
  - rewrite Hf. apply String.eqb_eq in E.
    destruct (String.eqb (Task.id x) other) eqn:E'; [|done].
    apply String.eqb_eq in E'. congruence.
  - by rewrite IH.
Qed.

Lemma apply_status_id status result error x :
  Task.id (apply_status status result error x) = Task.id x.
Proof.
  unfold apply_status. by destruct (truthy result), (truthy error).
Qed.

(** X17: [update_task_status] changes the first task with the given id and
    no other: looking the id up afterwards gives that task with the new
    status, with the new result and error only where a non-empty one was
    passed (an absent or empty one leaves the old value); every other id
    looks up as before; the plan keeps its length, and is unchanged when no
    task has the id. *)
Theorem update_task_status_then_find s task_id status result error :
  let s' := update_task_status s task_id status result error in
  find_task (task_plan s') task_id
    = apply_status status result error <$> find_task (task_plan s) task_id
  /\ (forall x, Task.status (apply_status status result error x) = status
                /\ Task.result (apply_status status result error x)
                   = (if truthy result then result else Task.result x)
                /\ Task.error (apply_status status result error x)
                   = (if truthy error then error else Task.error x))
  /\ (forall other, other <> task_id ->
        find_task (task_plan s') other = find_task (task_plan s) other)
  /\ length (task_plan s') = length (task_plan s)
  /\ (find_task (task_plan s) task_id = None -> s' = s).
Proof.
  cbv zeta. unfold update_task_status. cbn [task_plan set_task_plan].
  split; [|split; [|split; [|split]]].
  - apply find_task_update_first, apply_status_id.
  - intros x. unfold apply_status. by destruct (truthy result), (truthy error).
  - intros other Hne.
    by apply find_task_update_first_ne; [apply apply_status_id|].
  - induction (task_plan s) as [|x plan IH]; [done|]. cbn.
    destruct (String.eqb (Task.id x) task_id); cbn; by rewrite ?IH.
  - intros Hnone.
    assert (E : update_first task_id (apply_status status result error)
                  (task_plan s) = task_plan s).
    { revert Hnone. unfold find_task.
      induction (task_plan s) as [|x plan IH]; [done|]. cbn.
      destruct (String.eqb (Task.id x) task_id); [done|].
      intros H. by rewrite IH. }
    rewrite E. by destruct s.
Qed.

(** X18: after [update_task_status] with COMPLETED for an id of the plan,
    the updated task is among [get_completed_tasks] and not among
    [get_pending_tasks]; and the two selections never share a task. *)
Theorem completed_task_is_listed s task_id result error x :
  find_task (task_plan s) task_id = Some x ->
  let s' := update_task_status s task_id COMPLETED result error in
  (apply_status COMPLETED result error x ∈ get_completed_tasks s')
  /\ (apply_status COMPLETED result error x ∉ get_pending_tasks s')
  /\ (forall y, y ∈ get_completed_tasks s' -> y ∉ get_pending_tasks s').
Proof.
  intros Hfind. cbv zeta.
  assert (Hst : Task.status (apply_status COMPLETED result error x) = COMPLETED).
  { unfold apply_status. by destruct (truthy result), (truthy error). }
  assert (Hin : apply_status COMPLETED result error x
                ∈ task_plan (update_task_status s task_id COMPLETED result error)).
  { destruct (find_task_Some
                (task_plan (update_task_status s task_id COMPLETED result error))
                task_id (apply_status COMPLETED result error x)) as [Hin _];
      [|exact Hin].
    unfold update_task_status. cbn [task_plan set_task_plan].
    rewrite find_task_update_first by apply apply_status_id.
    by rewrite Hfind. }
  unfold get_completed_tasks, get_pending_tasks. split; [|split].
  - apply list_elem_of_filter. by split.
  - intros [Hp _]%list_elem_of_filter. unfold is_pending in Hp. congruence.
  - intros y [Hc _]%list_elem_of_filter [Hp _]%list_elem_of_filter.
    unfold is_completed, is_pending in *. congruence.
Qed.

Lemma completed_task_is_listed_witness :
  let x := Demo.task "task_1" "add" PENDING [] None None in
  let s := Demo.state_with [x] 0 in
  let s' := update_task_status s "task_1" COMPLETED (Some "8") None in
  (apply_status COMPLETED (Some "8") None x ∈ get_completed_tasks s')
  /\ (apply_status COMPLETED (Some "8") None x ∉ get_pending_tasks s')
  /\ (forall y, y ∈ get_completed_tasks s' -> y ∉ get_pending_tasks s').
Proof.
  intros x s.
  apply (completed_task_is_listed s "task_1" (Some "8") None x).
  reflexivity.
Defined.

(** ** The guards of the calculator and of the Python executor *)


Lemma prefix_append_split (a b s : string) :
  String.prefix (a +:+ b) s = true ->
  exists rest, s = a +:+ rest /\ String.prefix b rest = true.
Proof.
  revert s. induction a as [|c a IH]; intros s H; [by exists s|].
  destruct s as [|d s]; [done|]. rewrite append_cons in H. cbn in H.
  destruct (ascii_dec c d) as [->|]; [|done].
  destruct (IH s H) as (rest & -> & Hrest). by exists rest.
Qed.

Lemma prefix_contains (sub s : string) :
  String.prefix sub s = true -> PyStr.contains sub s = true.
Proof. intros H. rewrite contains_unfold. by rewrite H. Qed.

(** A text that contains [a +:+ b] contains [b]. *)
Lemma contains_suffix_part (a b s : string) :
  PyStr.contains (a +:+ b) s = true -> PyStr.contains b s = true.
Proof.
  induction s as [|c s IH]; rewrite contains_unfold;
    intros [Hp|Hc]%orb_true_iff; try done.
  - apply prefix_append_split in Hp as (rest & -> & Hrest).
    by apply contains_append_r, prefix_contains.
  - apply prefix_append_split in Hp as (rest & -> & Hrest).
    by apply contains_append_r, prefix_contains.
  - rewrite contains_unfold. rewrite (IH Hc). apply orb_true_r.
Qed.

(** X20: the Python executor hands the code to the restricted compiler only
    if its lower-case text contains none of the nine dangerous keywords;
    otherwise it answers with a SecurityError naming the first keyword of
    its list that occurs, and runs nothing.  The last keyword of the list,
    raw_input, is never the one named, since input comes before it. *)
Theorem python_executor_runs_checked_code_only run_restricted code :
  let r := python_execute run_restricted code in
  ((exists keyword, keyword ∈ python_dangerous_keywords
                    /\ PyStr.contains keyword (PyStr.lower code) = true) ->
   r.2 = []
   /\ success (response r.1) = false
   /\ error_type r.1 = Some "SecurityError"
   /\ exists keyword before after,
        python_dangerous_keywords = before ++ keyword :: after
        /\ PyStr.contains keyword (PyStr.lower code) = true
        /\ (forall k, k ∈ before ->
                      PyStr.contains k (PyStr.lower code) = false)
        /\ tr_error (response r.1)
           = Some ("Dangerous operation not allowed: " +:+ keyword)
        /\ keyword <> "raw_input")
  /\ ((forall keyword, keyword ∈ python_dangerous_keywords ->
                       PyStr.contains keyword (PyStr.lower code) = false) ->
      r.2 = [code]).
Proof.
  cbv zeta. unfold python_execute.
  set (hit := fun keyword => PyStr.contains keyword (PyStr.lower code)).
  assert (Hinput : hit "raw_input" = true -> hit "input" = true)
    by apply (contains_suffix_part "raw_" "input").
  split.
  - intros (keyword & Hin & Hhit).
    assert (Hcases :
      hit "import os" = true \/ hit "import sys" = true
      \/ hit "__import__" = true \/ hit "eval" = true \/ hit "compile" = true
      \/ hit "open" = true \/ hit "file" = true \/ hit "input" = true).
    { unfold python_dangerous_keywords in Hin.
      repeat (apply elem_of_cons in Hin as [->|Hin]; [by auto 10|]).
      by apply elem_of_nil in Hin. }
    unfold python_dangerous_keywords. cbn [find].
    fold (hit "import os") (hit "import sys") (hit "__import__") (hit "eval")
         (hit "compile") (hit "open") (hit "file") (hit "input")
         (hit "raw_input").
    destruct (hit "import os") eqn:H1.
    { repeat split. exists "import os", []; eexists. repeat split; try done.
      intros k Hk. by apply elem_of_nil in Hk. }
    destruct (hit "import sys") eqn:H2.
    { repeat split. exists "import sys", ["import os"]; eexists.
      repeat split; try done.
      intros k Hk. by repeat (apply elem_of_cons in Hk as [->|Hk]; [done|]);
        apply elem_of_nil in Hk. }
    destruct (hit "__import__") eqn:H3.
    { repeat split. exists "__import__", ["import os"; "import sys"]; eexists.
      repeat split; try done.
      intros k Hk. by repeat (apply elem_of_cons in Hk as [->|Hk]; [done|]);
        apply elem_of_nil in Hk. }
    destruct (hit "eval") eqn:H4.
    { repeat split.
      exists "eval", ["import os"; "import sys"; "__import__"]; eexists.
      repeat split; try done.
      intros k Hk. by repeat (apply elem_of_cons in Hk as [->|Hk]; [done|]);
        apply elem_of_nil in Hk. }
    destruct (hit "compile") eqn:H5.
    { repeat split.
      exists "compile", ["import os"; "import sys"; "__import__"; "eval"]; eexists.
      repeat split; try done.
      intros k Hk. by repeat (apply elem_of_cons in Hk as [->|Hk]; [done|]);
        apply elem_of_nil in Hk. }
    destruct (hit "open") eqn:H6.
    { repeat split.
      exists "open", ["import os"; "import sys"; "__import__"; "eval"; "compile"]; eexists.
      repeat split; try done.
      intros k Hk. by repeat (apply elem_of_cons in Hk as [->|Hk]; [done|]);
        apply elem_of_nil in Hk. }
    destruct (hit "file") eqn:H7.
    { repeat split.
      exists "file", ["import os"; "import sys"; "__import__"; "eval"; "compile"; "open"]; eexists.
      repeat split; try done.
      intros k Hk. by repeat (apply elem_of_cons in Hk as [->|Hk]; [done|]);
        apply elem_of_nil in Hk. }
    destruct (hit "input") eqn:H8.
    { repeat split.
      exists "input", ["import os"; "import sys"; "__import__"; "eval"; "compile"; "open";
         "file"]; eexists.
      repeat split; try done.
      intros k Hk. by repeat (apply elem_of_cons in Hk as [->|Hk]; [done|]);
        apply elem_of_nil in Hk. }
    exfalso. destruct Hcases as [?|[?|[?|[?|[?|[?|[?|?]]]]]]]; congruence.
  - intros Hnone.
    destruct (find _ python_dangerous_keywords) as [keyword|] eqn:E; [|done].
    apply find_some in E as [Hin Hhit]. unfold hit in Hhit.
    rewrite Hnone in Hhit by by apply list_elem_of_In. discriminate.
Qed.

(** ** Reading the tool call off the model's answer *)






















